(** * The research handler of ai-research-agent

    A shallow embedding of [handler] of [src/research.py], and proofs of
    what the specification says of it.  The second file of the repository,
    [src/netlify/functions/research.py], repeats the text of the handler but
    is not a Python module; it is embedded as what it is.

    The handler is Python over dynamically typed, JSON-born data: the
    embedding has one type of Python values, the few operations of Python the
    handler applies to them (with the exceptions they raise), [json.dumps]
    as an executable function, and the two things the handler gets from its
    environment as parameters: the JSON decoder ([json.loads]) and the
    transport ([requests.post]).  Exceptions and the log of outbound calls
    are threaded through a small state-and-error monad.

    The theorems hold for every decoder and every transport.  To run the
    handler on concrete texts there is an executable decoder, which is
    proved to read back what [json.dumps] writes. *)

From Stdlib Require Import ZArith List String Ascii Bool Lia.
From Stdlib Require Import DecimalString.
From Stdlib Require DecimalFacts DecimalPos.
Import ListNotations.
Open Scope string_scope.
Set Warnings "-register-all".

(** ** Python values and the operations the handler uses *)

Module Py.

(** The objects [json.loads] builds: [None], [bool], [int], [float], [str],
    [list] and [dict] with [str] keys.  A [float] is held by the text
    [json.dumps] writes for it (its [repr], or [NaN], [Infinity],
    [-Infinity]).  A [dict] keeps its items in insertion order, as Python's
    does; [lookup] takes the first binding of a key, which is the only one in
    a [dict].  A [str] is a [string] of characters below 256. *)
Inductive value : Type :=
  | VNone
  | VBool (b : bool)
  | VInt (n : Z)
  | VFloat (repr : string)
  | VStr (s : string)
  | VList (items : list value)
  | VDict (items : list (string * value)).

Fixpoint lookup (k : string) (kvs : list (string * value)) : option value :=
  match kvs with
  | [] => None
  | (k', v) :: rest => if String.eqb k k' then Some v else lookup k rest
  end.

(** [bool(v)]: what [if v], [not v] and [v and ...] test. *)
Definition truthy (v : value) : bool :=
  match v with
  | VNone => false
  | VBool b => b
  | VInt n => negb (Z.eqb n 0)
  | VFloat r => negb (String.eqb r "0.0" || String.eqb r "-0.0")
  | VStr s => negb (String.eqb s EmptyString)
  | VList l => match l with [] => false | _ => true end
  | VDict kvs => match kvs with [] => false | _ => true end
  end.

(** [type(v).__name__] *)
Definition type_name (v : value) : string :=
  match v with
  | VNone => "NoneType"
  | VBool _ => "bool"
  | VInt _ => "int"
  | VFloat _ => "float"
  | VStr _ => "str"
  | VList _ => "list"
  | VDict _ => "dict"
  end.

(** Exceptions: the classes the handler's [except] clauses tell apart, and
    the ones its own operations raise.  [exn_msg] is [str(e)].  Only
    subclasses of [Exception] are modelled. *)
Inductive exn_class : Type :=
  | Timeout                  (* requests.exceptions.Timeout and its subclasses *)
  | HTTPError                (* requests.exceptions.HTTPError *)
  | RequestsJSONDecodeError  (* requests.exceptions.JSONDecodeError *)
  | RequestException         (* any other requests.exceptions.RequestException *)
  | JSONDecodeError          (* json.JSONDecodeError *)
  | AttributeError
  | IndexError
  | KeyError
  | TypeError
  | OtherException.          (* any other subclass of Exception *)

Record exn : Type := mkExn { exn_cls : exn_class; exn_msg : string }.

(** [isinstance(e, requests.exceptions.Timeout)] *)
Definition is_Timeout (e : exn) : bool :=
  match exn_cls e with Timeout => true | _ => false end.

(** [isinstance(e, requests.exceptions.RequestException)]: [Timeout],
    [HTTPError] and requests' [JSONDecodeError] are subclasses of it. *)
Definition is_RequestException (e : exn) : bool :=
  match exn_cls e with
  | Timeout | HTTPError | RequestsJSONDecodeError | RequestException => true
  | _ => false
  end.

(** [isinstance(e, json.JSONDecodeError)]: requests' [JSONDecodeError]
    inherits from [json.JSONDecodeError] too. *)
Definition is_JSONDecodeError (e : exn) : bool :=
  match exn_cls e with
  | RequestsJSONDecodeError | JSONDecodeError => true
  | _ => false
  end.

Inductive result (A : Type) : Type :=
  | Ok (a : A)
  | Raise (e : exn).
Arguments Ok {A} a.
Arguments Raise {A} e.

Definition raise {A : Type} (c : exn_class) (msg : string) : result A :=
  Raise (mkExn c msg).

(** [v.get(k, default)] *)
Definition get (v : value) (k : string) (default : value) : result value :=
  match v with
  | VDict kvs =>
      Ok (match lookup k kvs with Some x => x | None => default end)
  | _ =>
      raise AttributeError
        ("'" ++ type_name v ++ "' object has no attribute 'get'")
  end.

(** [v[0]] *)
Definition getitem0 (v : value) : result value :=
  match v with
  | VList [] => raise IndexError "list index out of range"
  | VList (x :: _) => Ok x
  | VStr EmptyString => raise IndexError "string index out of range"
  | VStr (String c _) => Ok (VStr (String c EmptyString))
  | VDict _ => raise KeyError "0"
  | _ => raise TypeError ("'" ++ type_name v ++ "' object is not subscriptable")
  end.

(** [v[k]] for a [str] key [k] *)
Definition getitem (v : value) (k : string) : result value :=
  match v with
  | VDict kvs =>
      match lookup k kvs with
      | Some x => Ok x
      | None => raise KeyError ("'" ++ k ++ "'")
      end
  | VList _ => raise TypeError "list indices must be integers or slices, not str"
  | VStr _ => raise TypeError "string indices must be integers, not 'str'"
  | _ => raise TypeError ("'" ++ type_name v ++ "' object is not subscriptable")
  end.

Fixpoint chars (s : string) : list value :=
  match s with
  | EmptyString => []
  | String c rest => VStr (String c EmptyString) :: chars rest
  end.

(** The items [for x in v] visits. *)
Definition iter (v : value) : result (list value) :=
  match v with
  | VList l => Ok l
  | VDict kvs => Ok (map (fun kv => VStr (fst kv)) kvs)
  | VStr s => Ok (chars s)
  | _ => raise TypeError ("'" ++ type_name v ++ "' object is not iterable")
  end.

(** *** [json.dumps] with its default options *)

Definition dquote : string := String "034"%char EmptyString.

Definition hex_digit (n : N) : ascii :=
  if N.ltb n 10 then ascii_of_N (48 + n) else ascii_of_N (87 + n).

(** [ESCAPE_ASCII]: a backslash, a double quote and every character outside
    [' '..'~'] is replaced. *)
Definition escape_char (c : ascii) : string :=
  let n := N_of_ascii c in
  if N.eqb n 34 then "\" ++ dquote
  else if N.eqb n 92 then "\\"
  else if N.eqb n 10 then "\n"
  else if N.eqb n 13 then "\r"
  else if N.eqb n 9 then "\t"
  else if N.eqb n 8 then "\b"
  else if N.eqb n 12 then "\f"
  else if N.leb 32 n && N.leb n 126 then String c EmptyString
  else "\u00" ++ String (hex_digit (N.div n 16))
                   (String (hex_digit (N.modulo n 16)) EmptyString).

Fixpoint escape (s : string) : string :=
  match s with
  | EmptyString => EmptyString
  | String c rest => escape_char c ++ escape rest
  end.

Definition encode_str (s : string) : string := dquote ++ escape s ++ dquote.

Definition encode_int (n : Z) : string := NilZero.string_of_int (Z.to_int n).

Fixpoint dumps (v : value) : string :=
  match v with
  | VNone => "null"
  | VBool true => "true"
  | VBool false => "false"
  | VInt n => encode_int n
  | VFloat r => r
  | VStr s => encode_str s
  | VList l =>
      "[" ++
      (fix items (l : list value) : string :=
         match l with
         | [] => EmptyString
         | x :: rest =>
             match rest with
             | [] => dumps x
             | _ :: _ => dumps x ++ ", " ++ items rest
             end
         end) l
      ++ "]"
  | VDict kvs =>
      "{" ++
      (fix members (kvs : list (string * value)) : string :=
         match kvs with
         | [] => EmptyString
         | (k, x) :: rest =>
             match rest with
             | [] => encode_str k ++ ": " ++ dumps x
             | _ :: _ => encode_str k ++ ": " ++ dumps x ++ ", " ++ members rest
             end
         end) kvs
      ++ "}"
  end.

End Py.
Import Py.

(** ** The parts of [requests] the handler uses *)

Module Requests.

(** The arguments of [requests.post(url, headers=..., data=..., timeout=...)]. *)
Record request : Type := mkRequest {
  url : string;
  headers : list (string * string);
  data : string;
  timeout : Z
}.

(** A [requests.Response], as far as the handler reads it. *)
Record Response : Type := mkResponse {
  status_code : Z;
  reason : string;
  response_url : string;
  text : string
}.

(** [Response.raise_for_status()]: an [HTTPError] for a 4xx or 5xx status. *)
Definition raise_for_status (r : Response) : result unit :=
  if Z.leb 400 (status_code r) && Z.ltb (status_code r) 500 then
    raise HTTPError (encode_int (status_code r) ++ " Client Error: " ++ reason r
                     ++ " for url: " ++ response_url r)
  else if Z.leb 500 (status_code r) && Z.ltb (status_code r) 600 then
    raise HTTPError (encode_int (status_code r) ++ " Server Error: " ++ reason r
                     ++ " for url: " ++ response_url r)
  else Ok tt.

(** [Response.json()]: the decoder's failure is re-raised as requests' own
    [JSONDecodeError], with the decoder's message. *)
Definition json (loads : string -> string + value) (r : Response) : result value :=
  match loads (text r) with
  | inr v => Ok v
  | inl msg => raise RequestsJSONDecodeError msg
  end.

End Requests.

(** [json.loads(x)]: a [TypeError] unless [x] is a [str]; a
    [json.JSONDecodeError] when the decoder rejects the text. *)
Definition json_loads (loads : string -> string + value) (x : value) : result value :=
  match x with
  | VStr s =>
      match loads s with
      | inr v => Ok v
      | inl msg => raise JSONDecodeError msg
      end
  | _ =>
      raise TypeError
        ("the JSON object must be str, bytes or bytearray, not " ++ type_name x)
  end.

(** ** Computations that may raise and that log their outbound calls *)

Definition M (A : Type) : Type :=
  list Requests.request -> result A * list Requests.request.

Definition ret {A : Type} (a : A) : M A := fun calls => (Ok a, calls).

Definition bind {A B : Type} (c : M A) (k : A -> M B) : M B :=
  fun calls =>
    match c calls with
    | (Ok a, calls') => k a calls'
    | (Raise e, calls') => (Raise e, calls')
    end.

Definition lift {A : Type} (r : result A) : M A := fun calls => (r, calls).

Notation "x <- c ;; k" := (bind c (fun x => k))
  (at level 61, c at next level, right associativity).

(** The same for the steps that touch no state. *)
Definition rbind {A B : Type} (r : result A) (k : A -> result B) : result B :=
  match r with
  | Ok a => k a
  | Raise e => Raise e
  end.

Notation "x <~ r ;; k" := (rbind r (fun x => k))
  (at level 61, r at next level, right associativity).

(** [a and b], where evaluating [b] may raise: [b] is evaluated only when
    [a] is true. *)
Definition and_then (a : value) (b : result value) : result value :=
  if truthy a then b else Ok a.

(** What the handler returns: the dict [{"statusCode", "headers"?, "body"}]. *)
Record Reply : Type := mkReply {
  statusCode : Z;
  headers : option (list (string * string));
  body : string
}.

(** ** The configuration and the [try] block of [src/research.py]

    The constants of lines 8 to 18 and the body of [try:], lines 76 to 141.
    [RESPONSE_SCHEMA] is a parameter here and is given below. *)

Module Common.

Definition MODEL_NAME : string := "gemini-2.5-flash-preview-09-2025".

(** [os.environ.get("GEMINI_API_KEY")] is [None] or a [str]; the f-string
    formats [None] as its name. *)
Definition API_URL (GEMINI_API_KEY : option string) : string :=
  "https://generativelanguage.googleapis.com/v1beta/models/" ++ MODEL_NAME
  ++ ":generateContent?key="
  ++ match GEMINI_API_KEY with Some k => k | None => "None" end.

Definition SYSTEM_PROMPT : string := "
You are a Senior UI/UX and AI Research Analyst focused on modern web application development. Your task is to perform web search using the provided tools and collect high-quality, up-to-date resources for building an AI-powered website builder with exceptional UI/UX, similar to lovable.dev.
Analyze the user's request and provide the most relevant and powerful technologies and concepts. Your output MUST strictly adhere to the provided JSON schema. Do not include any introductory or concluding text outside of the JSON block.
Ensure all entries are well-researched, current, and directly relate to building a modern, performant, and user-friendly web application.
".

(** [not GEMINI_API_KEY] is false exactly for a non-empty [str]. *)
Definition key_set (GEMINI_API_KEY : option string) : bool :=
  match GEMINI_API_KEY with
  | Some k => negb (String.eqb k EmptyString)
  | None => false
  end.

(** The schema entry [{"type": "STRING", "description": ...}]. *)
Definition STRING (description : string) : value :=
  VDict [("type", VStr "STRING"); ("description", VStr description)].

Definition error_body (msg : string) : string :=
  dumps (VDict [("error", VStr msg)]).

Definition error_details_body (msg details : string) : string :=
  dumps (VDict [("error", VStr msg); ("details", VStr details)]).

Section TryBlock.

Variable loads : string -> string + value.
Variable post : Requests.request -> result Requests.Response.
Variable GEMINI_API_KEY : option string.
Variable RESPONSE_SCHEMA : value.

(** [requests.post(...)]: the call is logged whether it returns or raises. *)
Definition requests_post (req : Requests.request) : M Requests.Response :=
  fun calls => (post req, (calls ++ [req])%list).

(** The loop [for attribution in ...: ...], [sources] being the list it
    appends to. *)
Fixpoint for_attribution (attributions : list value) (sources : list value)
  : result (list value) :=
  match attributions with
  | [] => Ok sources
  | attribution :: rest =>
      web <~ get attribution "web" VNone ;;
      has_uri <~ and_then web (get web "uri" VNone) ;;
      if truthy has_uri then
        uri <~ getitem web "uri" ;;
        title <~ get web "title" (VStr "No Title Available") ;;
        for_attribution rest
          (sources ++ [VDict [("uri", uri); ("title", title)]])%list
      else for_attribution rest sources
  end.

(** "Extract citations/sources": [sources = []], then the guarded loop. *)
Definition extract_sources (grounding_metadata : value) : result (list value) :=
  let sources := [] in
  has_attributions <~ and_then grounding_metadata
                        (get grounding_metadata "groundingAttributions" VNone) ;;
  if truthy has_attributions then
    attributions <~ getitem grounding_metadata "groundingAttributions" ;;
    items <~ iter attributions ;;
    for_attribution items sources
  else Ok sources.

Definition payload (user_prompt : value) : value :=
  VDict [
    ("contents", VList [VDict [("parts", VList [VDict [("text", user_prompt)]])]]);
    ("tools", VList [VDict [("google_search", VDict [])]]);
    ("systemInstruction",
       VDict [("parts", VList [VDict [("text", VStr SYSTEM_PROMPT)]])]);
    ("generationConfig",
       VDict [("responseMimeType", VStr "application/json");
              ("responseSchema", RESPONSE_SCHEMA)])
  ].

(** From [response.raise_for_status()] to the success return: steps
    "5. Extract and Process Response" and "6. Return the consolidated data to
    the frontend".  No call is made here. *)
Definition process_response (response : Requests.Response) : result Reply :=
  _ <~ Requests.raise_for_status response ;;
  result <~ Requests.json loads response ;;
  candidates <~ get result "candidates" (VList [VDict []]) ;;
  candidate <~ getitem0 candidates ;;
  if negb (truthy candidate) then
    Ok (mkReply 500 None
          (error_body "Gemini API returned an empty candidate list."))
  else
    content <~ get candidate "content" (VDict []) ;;
    parts <~ get content "parts" (VList [VDict []]) ;;
    part <~ getitem0 parts ;;
    json_text <~ get part "text" VNone ;;
    grounding_metadata <~ get candidate "groundingMetadata" (VDict []) ;;
    if negb (truthy json_text) then
      Ok (mkReply 500 None
            (error_body "Gemini API failed to return structured JSON content."))
    else
      research_data <~ json_loads loads json_text ;;
      sources <~ extract_sources grounding_metadata ;;
      Ok (mkReply 200 (Some [("Content-Type", "application/json")])
            (dumps (VDict [("research", research_data);
                           ("sources", VList sources)]))).

(** The request of step "4. Call Gemini API". *)
Definition upstream_request (user_prompt : value) : Requests.request :=
  Requests.mkRequest (API_URL GEMINI_API_KEY)
    [("Content-Type", "application/json")]
    (dumps (payload user_prompt))
    30.

(** The body of [try:]: "2. Input Validation", "3. Construct Gemini
    Payload", "4. Call Gemini API", then the processing of the response. *)
Definition try_block (event : value) : M Reply :=
  has_body <- lift (get event "body" VNone) ;;
  if truthy has_body then
    event_body <- lift (getitem event "body") ;;
    data <- lift (json_loads loads event_body) ;;
    user_prompt <- lift (get data "prompt" VNone) ;;
    response <- requests_post (upstream_request user_prompt) ;;
    lift (process_response response)
  else
    ret (mkReply 400 None (error_body "Missing prompt in request data.")).

(** The last [except] clause, [except Exception as e]. *)
Definition except_Exception (e : exn) : Reply :=
  mkReply 500 None
    (error_details_body
       ("An unexpected server error occurred: " ++ exn_msg e) (exn_msg e)).

End TryBlock.

End Common.

(** ** [src/research.py] *)

Module Research.

Import Common.

Definition RESPONSE_SCHEMA : value :=
  VDict [
    ("type", VStr "OBJECT");
    ("properties", VDict [
       ("designPrinciples", VDict [
          ("type", VStr "ARRAY");
          ("description", VStr "Key UI/UX design philosophies, methodologies, or libraries relevant to modern AI builders.");
          ("items", VDict [
             ("type", VStr "OBJECT");
             ("properties", VDict [
                ("name", STRING "The name of the principle or library (e.g., Atomic Design, Shadcn UI).");
                ("summary", STRING "A concise 1-2 sentence summary of why this resource is valuable for the project.")]);
             ("required", VList [VStr "name"; VStr "summary"])])]);
       ("uiFrameworks", VDict [
          ("type", VStr "ARRAY");
          ("description", VStr "Recommended modern component libraries, styling utilities, or frameworks for rapid UI development.");
          ("items", VDict [
             ("type", VStr "OBJECT");
             ("properties", VDict [
                ("name", STRING "The name of the framework or tool (e.g., React, Svelte, Tailwind CSS).");
                ("summary", STRING "A concise 1-2 sentence summary of why this resource is valuable for the project.")]);
             ("required", VList [VStr "name"; VStr "summary"])])]);
       ("aiApiConcepts", VDict [
          ("type", VStr "ARRAY");
          ("description", VStr "Concepts or specific API use cases for integrating the AI model (Gemini) into the builder workflow.");
          ("items", VDict [
             ("type", VStr "OBJECT");
             ("properties", VDict [
                ("name", STRING "The name of the concept or API (e.g., Function Calling, Latent Space Image Generation).");
                ("summary", STRING "A concise 1-2 sentence summary of how this concept can be applied to the website builder.")]);
             ("required", VList [VStr "name"; VStr "summary"])])])]);
    ("required", VList [VStr "designPrinciples"; VStr "uiFrameworks"; VStr "aiApiConcepts"])
  ].

Section Handler.

Variable loads : string -> string + value.
Variable post : Requests.request -> result Requests.Response.
Variable GEMINI_API_KEY : option string.

(** The [except] clauses, tried in the order they are written. *)
Definition except (e : exn) : Reply :=
  if is_Timeout e then
    mkReply 504 None (error_body "The AI research request timed out.")
  else if is_RequestException e then
    mkReply 500 None
      (error_details_body
         ("Failed to communicate with the Gemini API: " ++ exn_msg e) (exn_msg e))
  else if is_JSONDecodeError e then
    mkReply 500 None
      (error_body "Failed to parse JSON response from AI model. Check prompt/schema alignment.")
  else except_Exception e.

(** [handler(event, context)]: the value returned and the outbound calls
    made, in order. *)
Definition handler (event context : value) : Reply * list Requests.request :=
  if negb (key_set GEMINI_API_KEY) then
    (mkReply 500 None
       (error_body "Server API Key is missing. Set GEMINI_API_KEY environment variable."),
     [])
  else
    match try_block loads post GEMINI_API_KEY RESPONSE_SCHEMA event [] with
    | (Ok reply, calls) => (reply, calls)
    | (Raise e, calls) => (except e, calls)
    end.

End Handler.

End Research.

(** ** [src/netlify/functions/research.py]

    This file is not a Python module.  Its lines 1 to 148 repeat
    [src/research.py], with the one clause [except Exception as e]; line 149
    goes on after the [return] statement of that clause with [</div>], and
    lines 150 to 282 are the markup and the script of the page.  Python
    compiles a file as a whole before it runs any of it: compiling this one
    raises [SyntaxError] at line 149, so importing it binds no [handler]. *)

Module NetlifyFunctionsResearch.

(** What compiling the file raises; [SyntaxError] is a subclass of
    [Exception] that no [except] clause of the repository names. *)
Definition compile_error : exn := mkExn OtherException "invalid syntax".

(** Importing the module, for the handler it would bind: the import raises
    before any statement of the file runs. *)
Definition import_handler
  : result (value -> value -> Reply * list Requests.request) :=
  Raise compile_error.

(** Calling the handler of this file on an event: import it, then call it. *)
Definition invoke (event context : value)
  : result (Reply * list Requests.request) :=
  handler <~ import_handler ;; Ok (handler event context).

End NetlifyFunctionsResearch.

(** ** An executable decoder

    [json.loads] is a parameter of the handler.  To run it on concrete
    texts, this is a decoder for the JSON texts whose numbers are integers
    and whose strings stay below character 256; it builds a [dict] the way
    Python does (a repeated key keeps its place and takes the last value). *)

Module Decoder.

Definition is_ws (c : ascii) : bool :=
  let n := N_of_ascii c in
  N.eqb n 32 || N.eqb n 9 || N.eqb n 10 || N.eqb n 13.

Fixpoint skip_ws (s : string) : string :=
  match s with
  | String c rest => if is_ws c then skip_ws rest else s
  | EmptyString => s
  end.

Definition digit_of (c : ascii) : option Z :=
  let n := N_of_ascii c in
  if N.leb 48 n && N.leb n 57 then Some (Z.of_N (n - 48)) else None.

Fixpoint scan_digits (s : string) (acc : Z) : Z * string :=
  match s with
  | String c rest =>
      match digit_of c with
      | Some d => scan_digits rest (10 * acc + d)
      | None => (acc, s)
      end
  | EmptyString => (acc, s)
  end.

Definition starts_fraction (s : string) : bool :=
  match s with
  | String c _ => Ascii.eqb c "." || Ascii.eqb c "e" || Ascii.eqb c "E"
  | EmptyString => false
  end.

(** A number is an optional minus sign, then 0 or a digit string without a
    leading zero; one with a fraction or an exponent is refused. *)
Definition scan_unsigned (s : string) : option (Z * string) :=
  match s with
  | String c rest =>
      match digit_of c with
      | Some d =>
          let '(n, rest') :=
            if Z.eqb d 0 then (0%Z, rest) else scan_digits rest d in
          if starts_fraction rest' then None else Some (n, rest')
      | None => None
      end
  | EmptyString => None
  end.

Definition scan_int (s : string) : option (Z * string) :=
  match s with
  | String c rest =>
      if Ascii.eqb c "-" then
        match scan_unsigned rest with
        | Some (n, rest') => Some ((- n)%Z, rest')
        | None => None
        end
      else scan_unsigned s
  | EmptyString => None
  end.

Definition hex_value (c : ascii) : option N :=
  let n := N_of_ascii c in
  if N.leb 48 n && N.leb n 57 then Some (n - 48)%N
  else if N.leb 97 n && N.leb n 102 then Some (n - 87)%N
  else if N.leb 65 n && N.leb n 70 then Some (n - 55)%N
  else None.

Definition hex4 (a b c d : ascii) : option ascii :=
  match hex_value a, hex_value b, hex_value c, hex_value d with
  | Some 0%N, Some 0%N, Some h, Some l => Some (ascii_of_N (16 * h + l))
  | _, _, _, _ => None
  end.

Definition unescape (c : ascii) : option ascii :=
  let n := N_of_ascii c in
  if N.eqb n 34 then Some c
  else if N.eqb n 92 then Some c
  else if N.eqb n 47 then Some c
  else if N.eqb n 98 then Some "008"%char
  else if N.eqb n 102 then Some "012"%char
  else if N.eqb n 110 then Some "010"%char
  else if N.eqb n 114 then Some "013"%char
  else if N.eqb n 116 then Some "009"%char
  else None.

Definition prepend (c : ascii) (r : option (string * string))
  : option (string * string) :=
  match r with
  | Some (s, rest) => Some (String c s, rest)
  | None => None
  end.

(** The characters of a string after its opening quote, and what follows
    the closing one. *)
Fixpoint scan_string (s : string) : option (string * string) :=
  match s with
  | EmptyString => None
  | String c rest =>
      if N.eqb (N_of_ascii c) 34 then Some (EmptyString, rest)
      else if N.eqb (N_of_ascii c) 92 then
        match rest with
        | String e rest' =>
            match unescape e with
            | Some c' => prepend c' (scan_string rest')
            | None =>
                if Ascii.eqb e "u" then
                  match rest' with
                  | String h1 (String h2 (String h3 (String h4 rest''))) =>
                      match hex4 h1 h2 h3 h4 with
                      | Some c' => prepend c' (scan_string rest'')
                      | None => None
                      end
                  | _ => None
                  end
                else None
            end
        | EmptyString => None
        end
      else if N.ltb (N_of_ascii c) 32 then None
      else prepend c (scan_string rest)
  end.

Fixpoint strip_prefix (p s : string) : option string :=
  match p, s with
  | EmptyString, _ => Some s
  | String a p', String b s' => if Ascii.eqb a b then strip_prefix p' s' else None
  | String _ _, EmptyString => None
  end.

(** [d[k] = v] *)
Fixpoint setitem (k : string) (v : value) (kvs : list (string * value))
  : list (string * value) :=
  match kvs with
  | [] => [(k, v)]
  | (k', v') :: rest =>
      if String.eqb k k' then (k, v) :: rest else (k', v') :: setitem k v rest
  end.

Definition scan_atom (s : string) : option (value * string) :=
  match strip_prefix "null" s with
  | Some rest => Some (VNone, rest)
  | None =>
  match strip_prefix "true" s with
  | Some rest => Some (VBool true, rest)
  | None =>
  match strip_prefix "false" s with
  | Some rest => Some (VBool false, rest)
  | None =>
  match scan_int s with
  | Some (n, rest) => Some (VInt n, rest)
  | None => None
  end end end end.

Fixpoint parse_value (fuel : nat) (s : string) : option (value * string) :=
  match fuel with
  | O => None
  | S fuel' =>
      match s with
      | EmptyString => None
      | String c rest =>
          if Ascii.eqb c "{" then
            match skip_ws rest with
            | EmptyString => None
            | String c' rest' =>
                if Ascii.eqb c' "}" then Some (VDict [], rest')
                else parse_members fuel' (String c' rest') []
            end
          else if Ascii.eqb c "[" then
            match skip_ws rest with
            | EmptyString => None
            | String c' rest' =>
                if Ascii.eqb c' "]" then Some (VList [], rest')
                else parse_elements fuel' (String c' rest') []
            end
          else if N.eqb (N_of_ascii c) 34 then
            match scan_string rest with
            | Some (str, rest') => Some (VStr str, rest')
            | None => None
            end
          else scan_atom s
      end
  end
with parse_elements (fuel : nat) (s : string) (acc : list value)
  : option (value * string) :=
  match fuel with
  | O => None
  | S fuel' =>
      match parse_value fuel' s with
      | Some (v, rest) =>
          match skip_ws rest with
          | EmptyString => None
          | String c rest' =>
              if Ascii.eqb c "," then
                parse_elements fuel' (skip_ws rest') (acc ++ [v])%list
              else if Ascii.eqb c "]" then Some (VList (acc ++ [v])%list, rest')
              else None
          end
      | None => None
      end
  end
with parse_members (fuel : nat) (s : string) (acc : list (string * value))
  : option (value * string) :=
  match fuel with
  | O => None
  | S fuel' =>
      match s with
      | EmptyString => None
      | String c rest =>
          if N.eqb (N_of_ascii c) 34 then
            match scan_string rest with
            | Some (k, rest1) =>
                match skip_ws rest1 with
                | EmptyString => None
                | String c1 rest2 =>
                    if Ascii.eqb c1 ":" then
                      match parse_value fuel' (skip_ws rest2) with
                      | Some (v, rest3) =>
                          match skip_ws rest3 with
                          | EmptyString => None
                          | String c3 rest4 =>
                              if Ascii.eqb c3 "," then
                                parse_members fuel' (skip_ws rest4) (setitem k v acc)
                              else if Ascii.eqb c3 "}" then
                                Some (VDict (setitem k v acc), rest4)
                              else None
                          end
                      | None => None
                      end
                    else None
                end
            | None => None
            end
          else None
      end
  end.

Definition loads (s : string) : string + value :=
  match parse_value (2 * String.length s + 2) (skip_ws s) with
  | Some (v, rest) =>
      match skip_ws rest with
      | EmptyString => inr v
      | String _ _ => inl "Extra data"
      end
  | None => inl "Expecting value"
  end.

End Decoder.

(** ** Specification vocabulary *)

(** An error envelope: [{"error": msg}] or [{"error": msg, "details": d}],
    with no headers. *)
Definition error_reply (r : Reply) : Prop :=
  headers r = None /\
  exists msg,
    body r = Common.error_body msg \/
    exists details, body r = Common.error_details_body msg details.

(** The success envelope: [{"research": ..., "sources": [...]}] with the
    JSON content type. *)
Definition success_reply (r : Reply) : Prop :=
  headers r = Some [("Content-Type", "application/json")] /\
  exists research sources,
    body r = dumps (VDict [("research", research); ("sources", VList sources)]).

(** A reply is the success envelope with status 200 or an error envelope
    with status 400, 500 or 504. *)
Definition well_formed (r : Reply) : Prop :=
  (statusCode r = 200%Z /\ success_reply r) \/
  (In (statusCode r) [400%Z; 500%Z; 504%Z] /\ error_reply r).

(** *** Computations *)

(** What a computation returns when it does not raise. *)
Definition returns {A : Type} (P : A -> Prop) (c : M A) : Prop :=
  forall calls,
    match c calls with
    | (Ok a, _) => P a
    | (Raise _, _) => True
    end.


(** A computation that makes no outbound call. *)
Definition silent {A : Type} (c : M A) : Prop :=
  forall calls, snd (c calls) = calls.

(** *** The success path, step by step *)

(** The event passes "2. Input Validation": it is a dict whose [body] is a
    non-empty [str] that decodes to a dict with items [data]. *)
Definition validated (loads : string -> string + value)
  (event : value) (data : list (string * value)) : Prop :=
  exists items s,
    event = VDict items /\
    lookup "body" items = Some (VStr s) /\
    s <> EmptyString /\
    loads s = inr (VDict data).

(** [data.get('prompt')] *)
Definition prompt_of (data : list (string * value)) : value :=
  match lookup "prompt" data with
  | Some x => x
  | None => VNone
  end.

(** [raise_for_status()] lets the response through. *)
Definition success_status (response : Requests.Response) : Prop :=
  Requests.raise_for_status response = Ok tt.

(** The response body decodes to a dict whose [candidates] is a list that
    starts with [candidate]. *)
Definition first_candidate (loads : string -> string + value)
  (response : Requests.Response) (candidate : value) : Prop :=
  exists result rest,
    loads (Requests.text response) = inr (VDict result) /\
    lookup "candidates" result = Some (VList (candidate :: rest)).

(** A candidate dict with the non-empty [str] [json_text] at
    [content.parts[0].text]. *)
Definition structured_text (candidate : list (string * value))
  (json_text : string) : Prop :=
  exists content part rest,
    lookup "content" candidate = Some (VDict content) /\
    lookup "parts" content = Some (VList (VDict part :: rest)) /\
    lookup "text" part = Some (VStr json_text) /\
    json_text <> EmptyString.

(** [candidate.get('groundingMetadata', {})] *)
Definition grounding_metadata_of (candidate : list (string * value)) : value :=
  match lookup "groundingMetadata" candidate with
  | Some g => g
  | None => VDict []
  end.

(** [candidate.get('content', {}).get('parts', [{}])[0].get('text')], the
    expression the handler reads the structured text with. *)
Definition structured_text_of (candidate : value) : result value :=
  content <~ get candidate "content" (VDict []) ;;
  parts <~ get content "parts" (VList [VDict []]) ;;
  part <~ getitem0 parts ;;
  get part "text" VNone.

(** The exceptions the operations on values raise: none of them is of a
    class the [except] clauses name. *)
Definition runtime_error (e : exn) : bool :=
  match exn_cls e with
  | AttributeError | IndexError | KeyError | TypeError => true
  | _ => false
  end.

(** A source entry as the loop builds it: a dict with the keys [uri] and
    [title], in this order, whose uri is true for Python. *)
Definition source_entry (source : value) : Prop :=
  exists uri title,
    source = VDict [("uri", uri); ("title", title)] /\ truthy uri = true.

(** *** Citation extraction, as the specification words it *)

(** The [web] dict of an attribution, when it has one. *)
Definition web_of (attribution : value) : option (list (string * value)) :=
  match attribution with
  | VDict items =>
      match lookup "web" items with
      | Some (VDict web) => Some web
      | _ => None
      end
  | _ => None
  end.

(** An attribution has a [web.uri] when its [web] is a dict whose [uri] is
    there and is not empty (true for Python: not [None], not the empty
    string). *)
Definition has_uri (attribution : value) : bool :=
  match web_of attribution with
  | Some web =>
      match lookup "uri" web with
      | Some uri => truthy uri
      | None => false
      end
  | None => false
  end.

(** The default of [web.get('title', ...)]. *)
Definition placeholder_title : string := "No Title Available".

(** The source entry the specification gives for an attribution with a
    [web.uri]: its uri, and its title or the placeholder. *)
Definition source_of (attribution : value) : value :=
  match web_of attribution with
  | Some web =>
      VDict [("uri", match lookup "uri" web with Some uri => uri | None => VNone end);
             ("title", match lookup "title" web with
                       | Some title => title
                       | None => VStr placeholder_title
                       end)]
  | None => VDict []
  end.

(** The source list as the specification words it: the attributions with a
    [web.uri], in their order, each turned into its entry. *)
Definition spec_sources (attributions : list value) : list value :=
  map source_of (filter has_uri attributions).

(** The shape the handler can read an attribution in: a dict whose [web], if
    any, is a dict or is false. *)
Definition readable (attribution : value) : bool :=
  match attribution with
  | VDict items =>
      match lookup "web" items with
      | None => true
      | Some (VDict _) => true
      | Some web => negb (truthy web)
      end
  | _ => false
  end.

(** Where the attributions of a candidate come from: none when
    [groundingMetadata] is absent, none when it is a dict without
    [groundingAttributions], else the list under that key. *)
Inductive grounding (candidate : list (string * value)) : list value -> Prop :=
  | grounding_absent :
      lookup "groundingMetadata" candidate = None ->
      grounding candidate []
  | grounding_without_attributions metadata :
      lookup "groundingMetadata" candidate = Some (VDict metadata) ->
      lookup "groundingAttributions" metadata = None ->
      grounding candidate []
  | grounding_attributions metadata attributions :
      lookup "groundingMetadata" candidate = Some (VDict metadata) ->
      lookup "groundingAttributions" metadata = Some (VList attributions) ->
      grounding candidate attributions.


(** *** JSON texts: plain values and their round trip *)

(** No key is bound twice, as in a Python [dict]. *)
Fixpoint unique_keys (kvs : list (string * value)) : bool :=
  match kvs with
  | [] => true
  | (k, _) :: rest =>
      match lookup k rest with
      | None => unique_keys rest
      | Some _ => false
      end
  end.

(** The values of JSON texts without fractional numbers: no [float], and
    dicts with distinct keys. *)
Fixpoint plain (v : value) : bool :=
  match v with
  | VFloat _ => false
  | VList l => forallb plain l
  | VDict kvs => unique_keys kvs && forallb (fun kv => plain (snd kv)) kvs
  | _ => true
  end.


(** The items and the members [dumps] writes between the brackets. *)
Fixpoint dumps_items (l : list value) : string :=
  match l with
  | [] => EmptyString
  | x :: rest =>
      match rest with
      | [] => dumps x
      | _ :: _ => dumps x ++ ", " ++ dumps_items rest
      end
  end.

Fixpoint dumps_members (kvs : list (string * value)) : string :=
  match kvs with
  | [] => EmptyString
  | (k, x) :: rest =>
      match rest with
      | [] => encode_str k ++ ": " ++ dumps x
      | _ :: _ => encode_str k ++ ": " ++ dumps x ++ ", " ++ dumps_members rest
      end
  end.

(** The fuel that decoding a printed value takes: one unit for each value
    and one for each item. *)
Fixpoint weight (v : value) : nat :=
  match v with
  | VList l =>
      S ((fix items (l : list value) : nat :=
            match l with
            | [] => O
            | x :: rest => S (weight x + items rest)
            end) l)
  | VDict kvs =>
      S ((fix members (kvs : list (string * value)) : nat :=
            match kvs with
            | [] => O
            | (_, x) :: rest => S (weight x + members rest)
            end) kvs)
  | _ => 1
  end.

Fixpoint weight_items (l : list value) : nat :=
  match l with
  | [] => O
  | x :: rest => S (weight x + weight_items rest)
  end.

Fixpoint weight_members (kvs : list (string * value)) : nat :=
  match kvs with
  | [] => O
  | (_, x) :: rest => S (weight x + weight_members rest)
  end.

(** What can follow a printed value: nothing, a comma or a closing bracket. *)
Definition delimited (rest : string) : bool :=
  match rest with
  | EmptyString => true
  | String c _ => Ascii.eqb c "," || Ascii.eqb c "]" || Ascii.eqb c "}"
  end.

(** What follows a number does not continue it. *)
Definition no_digit_ahead (rest : string) : Prop :=
  match rest with
  | EmptyString => True
  | String c _ => Decoder.digit_of c = None
  end.

(** The number a digit string stands for, after the digits summed in
    [acc]. *)
Fixpoint uint_value (d : Decimal.uint) (acc : Z) : Z :=
  match d with
  | Decimal.Nil => acc
  | Decimal.D0 l => uint_value l (10 * acc + 0)
  | Decimal.D1 l => uint_value l (10 * acc + 1)
  | Decimal.D2 l => uint_value l (10 * acc + 2)
  | Decimal.D3 l => uint_value l (10 * acc + 3)
  | Decimal.D4 l => uint_value l (10 * acc + 4)
  | Decimal.D5 l => uint_value l (10 * acc + 5)
  | Decimal.D6 l => uint_value l (10 * acc + 6)
  | Decimal.D7 l => uint_value l (10 * acc + 7)
  | Decimal.D8 l => uint_value l (10 * acc + 8)
  | Decimal.D9 l => uint_value l (10 * acc + 9)
  end.

(** A digit string that is not empty and does not start with 0. *)
Definition leading_nonzero (d : Decimal.uint) : Prop :=
  match d with
  | Decimal.Nil | Decimal.D0 _ => False
  | _ => True
  end.

(** The first character of a printed integer is a minus sign or a digit. *)
Definition number_head (c : ascii) : bool :=
  Ascii.eqb c "-" || match Decoder.digit_of c with Some _ => true | None => false end.

(** A text that starts with the first character of a printed plain value:
    not blank, not a closing bracket. *)
Definition opens_value (s : string) : Prop :=
  exists c t, s = String c t /\ Decoder.is_ws c = false /\ Ascii.eqb c "]" = false.

(** The round trip for one value: with enough fuel, the decoder reads it
    back from its text and leaves what follows. *)
Definition decodes (v : value) : Prop :=
  plain v = true ->
  forall fuel rest,
    (weight v <= fuel)%nat -> delimited rest = true ->
    Decoder.parse_value fuel (dumps v ++ rest) = Some (v, rest).

(** *** Concrete events and upstream answers *)

(** A transport that answers every request the same way. *)
Definition stub (answer : result Requests.Response)
  : Requests.request -> result Requests.Response :=
  fun _ => answer.

(** The event [{"body": s}]. *)
Definition event_with_body (s : string) : value := VDict [("body", VStr s)].

(** A key that is set. *)
Definition test_key : option string := Some "test-key".

(** The structured text of the specification's example. *)
Definition empty_research : value :=
  VDict [("designPrinciples", VList []);
         ("uiFrameworks", VList []);
         ("aiApiConcepts", VList [])].

(** A candidate with [json_text] at [content.parts[0].text] and the items
    [extra] after [content]. *)
Definition candidate_with (json_text : string) (extra : list (string * value))
  : list (string * value) :=
  ("content", VDict [("parts", VList [VDict [("text", VStr json_text)]])]) :: extra.

(** A 200 response with the given body. *)
Definition answer (text : string) : Requests.Response :=
  Requests.mkResponse 200 "OK" (Common.API_URL test_key) text.

(** The event of a request with a prompt. *)
Definition prompt_event : value :=
  event_with_body (dumps (VDict [("prompt", VStr "component libraries")])).

(** The reply of the success return. *)
Definition success_reply_of (research : value) (sources : list value) : Reply :=
  mkReply 200 (Some [("Content-Type", "application/json")])
    (dumps (VDict [("research", research); ("sources", VList sources)])).

(** The messages of the [RequestException] clause and of the
    [json.JSONDecodeError] clause. *)
Definition outer_decode_message (msg : string) : string :=
  "Failed to communicate with the Gemini API: " ++ msg.

Definition inner_decode_message : string :=
  "Failed to parse JSON response from AI model. Check prompt/schema alignment.".

(** Three attributions: one with uri and title, one without [web], one with
    a uri and no title. *)
Definition sample_attributions : list value :=
  [VDict [("web", VDict [("uri", VStr "https://ui.shadcn.com");
                         ("title", VStr "shadcn/ui")])];
   VDict [("retrievedContext", VDict [("text", VStr "notes")])];
   VDict [("web", VDict [("uri", VStr "https://tailwindcss.com")])]].

(** A candidate with these attributions. *)
Definition grounded_candidate : list (string * value) :=
  candidate_with (dumps empty_research)
    [("groundingMetadata",
      VDict [("groundingAttributions", VList sample_attributions)])].



(** * Proofs *)

(** ** The monad *)

Lemma returns_ret {A : Type} (P : A -> Prop) (a : A) :
  P a -> returns P (ret a).
Proof. intros H calls. exact H. Qed.

Lemma returns_bind {A B : Type} (P : B -> Prop) (c : M A) (k : A -> M B) :
  (forall a, returns P (k a)) -> returns P (x <- c ;; k x).
Proof.
  intros H calls. unfold bind.
  destruct (c calls) as [[a | e] calls']; [apply H | exact I].
Qed.

Lemma silent_ret {A : Type} (a : A) : silent (ret a).
Proof. intros calls. reflexivity. Qed.

Lemma silent_lift {A : Type} (r : result A) : silent (lift r).
Proof. intros calls. reflexivity. Qed.

Lemma silent_bind {A B : Type} (c : M A) (k : A -> M B) :
  silent c -> (forall a, silent (k a)) -> silent (x <- c ;; k x).
Proof.
  intros Hc Hk calls. unfold bind.
  specialize (Hc calls). destruct (c calls) as [[a | e] calls']; simpl in Hc; subst.
  - apply Hk.
  - reflexivity.
Qed.




Ltac silent_steps :=
  repeat match goal with
    | |- silent (ret _) => apply silent_ret
    | |- silent (lift _) => apply silent_lift
    | |- silent (bind _ _) => apply silent_bind; [ | intro ]
    | |- silent (if ?b then _ else _) => destruct b
    end.

Ltac returns_steps :=
  repeat match goal with
    | |- returns _ (bind _ _) => apply returns_bind; intro
    | |- returns _ (if ?b then _ else _) => destruct b
    | |- returns _ (ret _) => apply returns_ret
    end.

(** ** The decoder inverts [json.dumps] on plain values *)

Lemma append_assoc (a b c : string) : (a ++ b) ++ c = a ++ (b ++ c).
Proof. induction a as [ | x a IH]; simpl; [reflexivity | rewrite IH; reflexivity]. Qed.

Lemma scan_escape_char (c : ascii) (tail : string) :
  Decoder.scan_string (escape_char c ++ tail) = Decoder.prepend c (Decoder.scan_string tail).
Proof.
  destruct c as [b0 b1 b2 b3 b4 b5 b6 b7].
  destruct b0, b1, b2, b3, b4, b5, b6, b7; reflexivity.
Qed.

Lemma scan_string_escape (s rest : string) :
  Decoder.scan_string (escape s ++ dquote ++ rest) = Some (s, rest).
Proof.
  induction s as [ | c s IH].
  - reflexivity.
  - cbn [escape]. rewrite append_assoc, scan_escape_char, IH. reflexivity.
Qed.

Lemma scan_digits_uint (d : Decimal.uint) :
  forall acc rest,
    no_digit_ahead rest ->
    Decoder.scan_digits (NilEmpty.string_of_uint d ++ rest) acc = (uint_value d acc, rest).
Proof.
  induction d; intros acc rest Hrest;
    try (cbn [NilEmpty.string_of_uint append Decoder.scan_digits uint_value];
         change (Decoder.digit_of _) with (Some 0%Z) ||
         idtac; simpl Decoder.digit_of; cbv iota; apply IHd; exact Hrest).
  simpl. destruct rest as [ | c rest]; [reflexivity | ].
  simpl in *. rewrite Hrest. reflexivity.
Qed.

Lemma uint_value_acc (d : Decimal.uint) :
  forall acc, Zpos (Pos.of_uint_acc d acc) = uint_value d (Zpos acc).
Proof.
  induction d; intro acc; cbn [Pos.of_uint_acc uint_value]; try reflexivity;
    rewrite IHd; f_equal; lia.
Qed.

Lemma uint_value_of_uint (d : Decimal.uint) :
  Z.of_N (Pos.of_uint d) = uint_value d 0.
Proof.
  induction d; cbn [Pos.of_uint uint_value]; try reflexivity; try exact IHd;
    cbn [Z.of_N]; rewrite uint_value_acc; reflexivity.
Qed.

Lemma uint_value_to_uint (p : positive) : uint_value (Pos.to_uint p) 0 = Zpos p.
Proof.
  rewrite <- uint_value_of_uint, DecimalPos.Unsigned.of_to. reflexivity.
Qed.

Lemma delimited_no_digit rest : delimited rest = true -> no_digit_ahead rest.
Proof.
  destruct rest as [ | c rest]; [exact (fun _ => I) | ].
  simpl. intro H. apply orb_prop in H. destruct H as [H | H];
    [apply orb_prop in H; destruct H as [H | H] | ];
    apply Ascii.eqb_eq in H; subst c; reflexivity.
Qed.

Lemma delimited_no_fraction rest :
  delimited rest = true -> Decoder.starts_fraction rest = false.
Proof.
  destruct rest as [ | c rest]; [reflexivity | ].
  simpl. intro H. apply orb_prop in H. destruct H as [H | H];
    [apply orb_prop in H; destruct H as [H | H] | ];
    apply Ascii.eqb_eq in H; subst c; reflexivity.
Qed.

Lemma to_uint_leading_nonzero (p : positive) : leading_nonzero (Pos.to_uint p).
Proof.
  pose proof (DecimalPos.Unsigned.to_of (Pos.to_uint p)) as H.
  rewrite DecimalPos.Unsigned.of_to in H. simpl N.to_uint in H.
  pose proof (DecimalPos.Unsigned.to_uint_nonzero p) as Hz.
  destruct (Pos.to_uint p) as [ | l | l | l | l | l | l | l | l | l | l ] eqn:E;
    try exact I.
  - apply (DecimalPos.Unsigned.to_uint_nonnil p E).
  - unfold Decimal.unorm in H. simpl Decimal.nzhead in H.
    destruct (Decimal.nzhead l) eqn:En.
    + injection H as ->. apply Hz. reflexivity.
    + exact (DecimalFacts.nzhead_nonzero l u En).
    + discriminate H.
    + discriminate H.
    + discriminate H.
    + discriminate H.
    + discriminate H.
    + discriminate H.
    + discriminate H.
    + discriminate H.
    + discriminate H.
Qed.

Lemma scan_unsigned_digits (d : Decimal.uint) (rest : string) :
  leading_nonzero d -> delimited rest = true ->
  Decoder.scan_unsigned (NilEmpty.string_of_uint d ++ rest) = Some (uint_value d 0, rest).
Proof.
  intros Hd Hrest.
  pose proof (delimited_no_digit rest Hrest) as Hnd.
  pose proof (delimited_no_fraction rest Hrest) as Hnf.
  destruct d as [ | l | l | l | l | l | l | l | l | l | l ]; try contradiction;
    unfold Decoder.scan_unsigned; cbn [NilEmpty.string_of_uint append];
    match goal with
    | |- context [Decoder.digit_of ?c] =>
        let v := eval vm_compute in (Decoder.digit_of c) in
        change (Decoder.digit_of c) with v
    end;
    cbv iota; simpl Z.eqb; cbv iota;
    rewrite (scan_digits_uint l _ rest Hnd), Hnf; reflexivity.
Qed.

Lemma string_of_uint_nonnil (d : Decimal.uint) :
  leading_nonzero d -> NilZero.string_of_uint d = NilEmpty.string_of_uint d.
Proof. destruct d; [contradiction | reflexivity ..]. Qed.

Lemma string_of_uint_head (d : Decimal.uint) :
  leading_nonzero d ->
  exists c s, NilEmpty.string_of_uint d = String c s /\
              Ascii.eqb c "-" = false /\ number_head c = true.
Proof.
  destruct d; try contradiction; intros _; eexists; eexists;
    (split; [reflexivity | split; reflexivity]).
Qed.

Lemma scan_int_encode (n : Z) (rest : string) :
  delimited rest = true ->
  Decoder.scan_int (encode_int n ++ rest) = Some (n, rest).
Proof.
  intro Hrest. unfold encode_int.
  destruct n as [ | p | p]; simpl Z.to_int; unfold NilZero.string_of_int.
  - change (NilZero.string_of_uint Decimal.zero ++ rest) with (String "0" rest).
    unfold Decoder.scan_int. change (Ascii.eqb "0" "-") with false. cbv iota.
    unfold Decoder.scan_unsigned.
    change (Decoder.digit_of "0") with (Some 0%Z). cbv iota beta.
    change (Z.eqb 0 0) with true. cbv iota beta.
    rewrite (delimited_no_fraction rest Hrest). reflexivity.
  - pose proof (to_uint_leading_nonzero p) as Hp.
    rewrite (string_of_uint_nonnil _ Hp).
    destruct (string_of_uint_head _ Hp) as (c & s & E & Hc & _).
    unfold Decoder.scan_int. rewrite E. cbn [append]. rewrite Hc.
    change (String c (s ++ rest)) with (String c s ++ rest). rewrite <- E.
    rewrite (scan_unsigned_digits _ rest Hp Hrest), uint_value_to_uint. reflexivity.
  - pose proof (to_uint_leading_nonzero p) as Hp.
    rewrite (string_of_uint_nonnil _ Hp).
    unfold Decoder.scan_int. cbn [append]. change (Ascii.eqb "-" "-") with true. cbv iota.
    rewrite (scan_unsigned_digits _ rest Hp Hrest), uint_value_to_uint. reflexivity.
Qed.

Lemma encode_int_head (n : Z) :
  exists c s, encode_int n = String c s /\ number_head c = true.
Proof.
  unfold encode_int. destruct n as [ | p | p]; simpl Z.to_int; unfold NilZero.string_of_int.
  - exists "0"%char, EmptyString. split; reflexivity.
  - pose proof (to_uint_leading_nonzero p) as Hp.
    rewrite (string_of_uint_nonnil _ Hp).
    destruct (string_of_uint_head _ Hp) as (c & s & E & _ & Hc). eauto.
  - eexists. eexists. split; reflexivity.
Qed.

Lemma dumps_list (l : list value) : dumps (VList l) = "[" ++ dumps_items l ++ "]".
Proof. reflexivity. Qed.

Lemma dumps_dict (kvs : list (string * value)) :
  dumps (VDict kvs) = "{" ++ dumps_members kvs ++ "}".
Proof. reflexivity. Qed.

Lemma weight_list (l : list value) : weight (VList l) = S (weight_items l).
Proof. reflexivity. Qed.

Lemma weight_dict (kvs : list (string * value)) :
  weight (VDict kvs) = S (weight_members kvs).
Proof. reflexivity. Qed.

Lemma value_nested_ind (P : value -> Prop) :
  P VNone ->
  (forall b, P (VBool b)) ->
  (forall n, P (VInt n)) ->
  (forall r, P (VFloat r)) ->
  (forall s, P (VStr s)) ->
  (forall l, Forall P l -> P (VList l)) ->
  (forall kvs, Forall (fun kv => P (snd kv)) kvs -> P (VDict kvs)) ->
  forall v, P v.
Proof.
  intros HNone HBool HInt HFloat HStr HList HDict.
  fix IH 1. intros [ | b | n | r | s | l | kvs].
  - exact HNone.
  - apply HBool.
  - apply HInt.
  - apply HFloat.
  - apply HStr.
  - apply HList. induction l as [ | x l IHl]; constructor; [apply IH | exact IHl].
  - apply HDict. induction kvs as [ | [k x] kvs IHk]; constructor; [apply IH | exact IHk].
Qed.

Lemma append_nil_r (s : string) : s ++ EmptyString = s.
Proof. induction s as [ | c s IH]; simpl; [reflexivity | rewrite IH; reflexivity]. Qed.

Lemma number_head_facts (c : ascii) :
  number_head c = true ->
  Decoder.is_ws c = false /\ Ascii.eqb c "]" = false /\
  Ascii.eqb c "{" = false /\ Ascii.eqb c "[" = false /\
  N.eqb (N_of_ascii c) 34 = false /\
  Ascii.eqb "n" c = false /\ Ascii.eqb "t" c = false /\ Ascii.eqb "f" c = false.
Proof.
  destruct c as [b0 b1 b2 b3 b4 b5 b6 b7].
  destruct b0, b1, b2, b3, b4, b5, b6, b7; intro H;
    try discriminate H; repeat split; reflexivity.
Qed.

Lemma opens_value_append (s rest : string) :
  opens_value s -> opens_value (s ++ rest).
Proof.
  intros (c & t & -> & H). exists c, (t ++ rest). split; [reflexivity | exact H].
Qed.

Lemma opens_value_skip_ws (s : string) :
  opens_value s -> Decoder.skip_ws s = s.
Proof.
  intros (c & t & -> & Hws & _). simpl. rewrite Hws. reflexivity.
Qed.

Lemma dumps_opens (v : value) : plain v = true -> opens_value (dumps v).
Proof.
  destruct v as [ | [ | ] | n | r | s | l | kvs]; intro Hp; try discriminate Hp;
    try (eexists; eexists; split; [reflexivity | split; reflexivity]).
  destruct (encode_int_head n) as (c & s & E & Hc).
  destruct (number_head_facts c Hc) as (H1 & H2 & _).
  exists c, s. split; [exact E | split; assumption].
Qed.

Lemma dumps_items_opens (x : value) (l : list value) :
  plain x = true -> opens_value (dumps_items (x :: l)).
Proof.
  intro Hp. cbn [dumps_items]. destruct l.
  - apply dumps_opens, Hp.
  - apply opens_value_append, dumps_opens, Hp.
Qed.

Lemma parse_value_atom (fuel : nat) (c : ascii) (s : string) :
  Ascii.eqb c "{" = false -> Ascii.eqb c "[" = false ->
  N.eqb (N_of_ascii c) 34 = false ->
  Decoder.parse_value (S fuel) (String c s) = Decoder.scan_atom (String c s).
Proof.
  intros H1 H2 H3. cbn [Decoder.parse_value]. rewrite H1, H2, H3. reflexivity.
Qed.

Lemma scan_atom_number (c : ascii) (s : string) :
  Ascii.eqb "n" c = false -> Ascii.eqb "t" c = false -> Ascii.eqb "f" c = false ->
  Decoder.scan_atom (String c s) =
    match Decoder.scan_int (String c s) with
    | Some (n, rest) => Some (VInt n, rest)
    | None => None
    end.
Proof.
  intros H1 H2 H3. unfold Decoder.scan_atom. cbn [Decoder.strip_prefix].
  rewrite H1, H2, H3. reflexivity.
Qed.

Lemma setitem_fresh (k : string) (v : value) (acc : list (string * value)) :
  lookup k acc = None -> Decoder.setitem k v acc = (acc ++ [(k, v)])%list.
Proof.
  induction acc as [ | [k' v'] acc IH]; intro H; [reflexivity | ].
  simpl in *. destruct (String.eqb k k'); [discriminate H | ].
  rewrite (IH H). reflexivity.
Qed.

Lemma lookup_app_none (k : string) (a b : list (string * value)) :
  lookup k (a ++ b)%list = None -> lookup k a = None /\ lookup k b = None.
Proof.
  induction a as [ | [k' v'] a IH]; simpl; intro H; [split; [reflexivity | exact H] | ].
  destruct (String.eqb k k'); [discriminate H | apply IH, H].
Qed.

Lemma unique_keys_fresh (acc : list (string * value)) k x rest :
  unique_keys (acc ++ (k, x) :: rest)%list = true -> lookup k acc = None.
Proof.
  induction acc as [ | [k' v'] acc IH]; intro H; [reflexivity | ].
  simpl in H. destruct (lookup k' (acc ++ (k, x) :: rest)%list) eqn:E; [discriminate H | ].
  apply lookup_app_none in E. destruct E as [_ E]. simpl in E.
  simpl. destruct (String.eqb k' k) eqn:Ek; [discriminate E | ].
  rewrite String.eqb_sym, Ek. apply IH, H.
Qed.

Lemma skip_ws_separator (s : string) :
  Decoder.skip_ws (", " ++ s) = String "," (String " " s).
Proof. reflexivity. Qed.

Lemma skip_ws_space (s : string) :
  Decoder.skip_ws (String " " s) = Decoder.skip_ws s.
Proof. reflexivity. Qed.

Lemma parse_elements_dumps (l : list value) :
  Forall decodes l -> forallb plain l = true ->
  forall x fuel acc rest,
    decodes x -> plain x = true ->
    (weight_items (x :: l) <= fuel)%nat ->
    Decoder.parse_elements fuel (dumps_items (x :: l) ++ "]" ++ rest) acc =
      Some (VList (acc ++ x :: l)%list, rest).
Proof.
  induction l as [ | y l IH]; intros Hl Hpl x fuel acc rest Hx Hpx Hfuel.
  - cbn [weight_items] in Hfuel. destruct fuel as [ | fuel]; [lia | ].
    cbn [Decoder.parse_elements dumps_items].
    rewrite (Hx Hpx fuel ("]" ++ rest)) by (lia || reflexivity).
    reflexivity.
  - cbn [weight_items] in Hfuel. destruct fuel as [ | fuel]; [lia | ].
    inversion Hl as [ | y' l' Hy Hl']; subst.
    cbn [forallb] in Hpl. apply andb_prop in Hpl. destruct Hpl as [Hpy Hpl].
    change (dumps_items (x :: y :: l)) with (dumps x ++ ", " ++ dumps_items (y :: l)).
    rewrite !append_assoc.
    cbn [Decoder.parse_elements].
    rewrite (Hx Hpx fuel _) by (lia || reflexivity).
    rewrite skip_ws_separator. cbv iota.
    change (Ascii.eqb "," ",") with true. cbv iota.
    rewrite skip_ws_space, opens_value_skip_ws
      by (apply opens_value_append, dumps_items_opens, Hpy).
    rewrite (IH Hl' Hpl y fuel (acc ++ [x])%list rest Hy Hpy)
      by (cbn [weight_items] in *; lia).
    rewrite <- app_assoc. reflexivity.
Qed.

Lemma parse_members_dumps (kvs : list (string * value)) :
  Forall (fun kv => decodes (snd kv)) kvs ->
  forallb (fun kv => plain (snd kv)) kvs = true ->
  forall k x fuel acc rest,
    decodes x -> plain x = true ->
    unique_keys (acc ++ (k, x) :: kvs)%list = true ->
    (weight_members ((k, x) :: kvs) <= fuel)%nat ->
    Decoder.parse_members fuel (dumps_members ((k, x) :: kvs) ++ "}" ++ rest) acc =
      Some (VDict (acc ++ (k, x) :: kvs)%list, rest).
Proof.
  induction kvs as [ | [k' y] kvs IH]; intros Hl Hpl k x fuel acc rest Hx Hpx Hu Hfuel.
  - cbn [weight_members] in Hfuel. destruct fuel as [ | fuel]; [lia | ].
    cbn [dumps_members]. unfold encode_str. rewrite !append_assoc.
    change (dquote ++ escape k ++ dquote ++ ": " ++ dumps x ++ "}" ++ rest)
      with (String "034" (escape k ++ dquote ++ ": " ++ dumps x ++ "}" ++ rest)).
    cbn [Decoder.parse_members].
    change (N.eqb (N_of_ascii "034") 34) with true. cbv iota.
    rewrite scan_string_escape.
    change (Decoder.skip_ws (": " ++ dumps x ++ "}" ++ rest))
      with (String ":" (String " " (dumps x ++ "}" ++ rest))).
    cbv iota. change (Ascii.eqb ":" ":") with true. cbv iota.
    rewrite skip_ws_space, opens_value_skip_ws
      by (apply opens_value_append, dumps_opens, Hpx).
    rewrite (Hx Hpx fuel ("}" ++ rest)) by (lia || reflexivity).
    rewrite (setitem_fresh k x acc (unique_keys_fresh acc k x [] Hu)).
    reflexivity.
  - cbn [weight_members] in Hfuel. destruct fuel as [ | fuel]; [lia | ].
    inversion Hl as [ | kv' l' Hy Hl']; subst. simpl snd in Hy.
    cbn [forallb] in Hpl. apply andb_prop in Hpl. destruct Hpl as [Hpy Hpl].
    simpl snd in Hpy.
    change (dumps_members ((k, x) :: (k', y) :: kvs))
      with (encode_str k ++ ": " ++ dumps x ++ ", " ++ dumps_members ((k', y) :: kvs)).
    unfold encode_str at 1. rewrite !append_assoc.
    change (dquote ++ escape k ++ dquote ++ ": " ++ dumps x ++ ", " ++
            dumps_members ((k', y) :: kvs) ++ "}" ++ rest)
      with (String "034" (escape k ++ dquote ++ ": " ++ dumps x ++ ", " ++
            dumps_members ((k', y) :: kvs) ++ "}" ++ rest)).
    cbn [Decoder.parse_members].
    change (N.eqb (N_of_ascii "034") 34) with true. cbv iota.
    rewrite scan_string_escape.
    change (Decoder.skip_ws (": " ++ dumps x ++ ", " ++
                             dumps_members ((k', y) :: kvs) ++ "}" ++ rest))
      with (String ":" (String " " (dumps x ++ ", " ++
                             dumps_members ((k', y) :: kvs) ++ "}" ++ rest))).
    cbv iota. change (Ascii.eqb ":" ":") with true. cbv iota.
    rewrite skip_ws_space, opens_value_skip_ws
      by (apply opens_value_append, dumps_opens, Hpx).
    rewrite (Hx Hpx fuel _) by (lia || reflexivity).
    rewrite skip_ws_separator. cbv iota.
    change (Ascii.eqb "," ",") with true. cbv iota.
    rewrite skip_ws_space.
    assert (Ho : opens_value (dumps_members ((k', y) :: kvs) ++ "}" ++ rest)).
    { apply opens_value_append. cbn [dumps_members].
      destruct kvs; unfold encode_str;
        (eexists; eexists; split; [reflexivity | split; reflexivity]). }
    rewrite (opens_value_skip_ws _ Ho).
    rewrite (setitem_fresh k x acc (unique_keys_fresh acc k x _ Hu)).
    rewrite (IH Hl' Hpl k' y fuel (acc ++ [(k, x)])%list rest Hy Hpy)
      by (rewrite <- ?app_assoc; cbn [weight_members] in *; (exact Hu || lia)).
    rewrite <- app_assoc. reflexivity.
Qed.

Lemma parse_value_dumps (v : value) : decodes v.
Proof.
  induction v as [ | b | n | r | s | l IH | kvs IH] using value_nested_ind;
    intros Hp fuel rest Hfuel Hrest.
  - destruct fuel as [ | fuel]; [simpl in Hfuel; lia | reflexivity].
  - destruct fuel as [ | fuel]; [simpl in Hfuel; lia | destruct b; reflexivity].
  - destruct fuel as [ | fuel]; [simpl in Hfuel; lia | ].
    destruct (encode_int_head n) as (c & s & E & Hc).
    destruct (number_head_facts c Hc) as (_ & _ & H1 & H2 & H3 & H4 & H5 & H6).
    cbn [dumps]. rewrite E. cbn [append].
    rewrite (parse_value_atom fuel c _ H1 H2 H3), (scan_atom_number c _ H4 H5 H6).
    change (String c (s ++ rest)) with (String c s ++ rest). rewrite <- E.
    rewrite (scan_int_encode n rest Hrest). reflexivity.
  - discriminate Hp.
  - destruct fuel as [ | fuel]; [simpl in Hfuel; lia | ].
    cbn [dumps]. unfold encode_str. rewrite !append_assoc.
    change (dquote ++ escape s ++ dquote ++ rest)
      with (String "034" (escape s ++ dquote ++ rest)).
    cbn [Decoder.parse_value].
    change (Ascii.eqb "034" "{") with false.
    change (Ascii.eqb "034" "[") with false.
    change (N.eqb (N_of_ascii "034") 34) with true. cbv iota.
    rewrite scan_string_escape. reflexivity.
  - rewrite weight_list in Hfuel. destruct fuel as [ | fuel]; [lia | ].
    cbn [plain] in Hp. rewrite dumps_list.
    destruct l as [ | x l]; [reflexivity | ].
    inversion IH as [ | x' l' Hx Hl]; subst.
    cbn [forallb] in Hp. apply andb_prop in Hp. destruct Hp as [Hpx Hpl].
    rewrite !append_assoc.
    change ("[" ++ dumps_items (x :: l) ++ "]" ++ rest)
      with (String "[" (dumps_items (x :: l) ++ "]" ++ rest)).
    cbn [Decoder.parse_value].
    change (Ascii.eqb "[" "{") with false.
    change (Ascii.eqb "[" "[") with true. cbv iota.
    assert (Ho : opens_value (dumps_items (x :: l) ++ "]" ++ rest))
      by (apply opens_value_append, dumps_items_opens, Hpx).
    rewrite (opens_value_skip_ws _ Ho).
    destruct Ho as (c & t & E & _ & Hc). rewrite E, Hc, <- E.
    apply (parse_elements_dumps l Hl Hpl x fuel [] rest Hx Hpx). lia.
  - rewrite weight_dict in Hfuel. destruct fuel as [ | fuel]; [lia | ].
    cbn [plain] in Hp. apply andb_prop in Hp. destruct Hp as [Hu Hp].
    rewrite dumps_dict.
    destruct kvs as [ | [k x] kvs]; [reflexivity | ].
    inversion IH as [ | kv' l' Hx Hl]; subst. simpl snd in Hx.
    cbn [forallb] in Hp. apply andb_prop in Hp. destruct Hp as [Hpx Hpl].
    simpl snd in Hpx.
    rewrite !append_assoc.
    change ("{" ++ dumps_members ((k, x) :: kvs) ++ "}" ++ rest)
      with (String "{" (dumps_members ((k, x) :: kvs) ++ "}" ++ rest)).
    cbn [Decoder.parse_value].
    change (Ascii.eqb "{" "{") with true. cbv iota.
    assert (Ho : exists t, dumps_members ((k, x) :: kvs) ++ "}" ++ rest = String "034" t).
    { cbn [dumps_members]. destruct kvs; unfold encode_str; eexists; reflexivity. }
    destruct Ho as (t & E). rewrite E.
    change (Decoder.skip_ws (String "034" t)) with (String "034" t). cbv iota.
    change (Ascii.eqb "034" "}") with false. cbv iota. rewrite <- E.
    apply (parse_members_dumps kvs Hl Hpl k x fuel [] rest Hx Hpx Hu). lia.
Qed.

Lemma length_append (a b : string) :
  String.length (a ++ b) = (String.length a + String.length b)%nat.
Proof. induction a as [ | c a IH]; simpl; [reflexivity | rewrite IH; reflexivity]. Qed.

Lemma weight_le_length (v : value) :
  plain v = true -> (weight v <= String.length (dumps v))%nat.
Proof.
  induction v as [ | b | n | r | s | l IH | kvs IH] using value_nested_ind; intro Hp.
  - simpl. lia.
  - destruct b; simpl; lia.
  - destruct (encode_int_head n) as (c & s & E & _). cbn [dumps weight]. rewrite E.
    simpl. lia.
  - discriminate Hp.
  - simpl. lia.
  - rewrite weight_list, dumps_list. cbn [plain] in Hp.
    change ("[" ++ dumps_items l ++ "]") with (String "[" (dumps_items l ++ "]")).
    cbn [String.length]. rewrite length_append.
    assert (H : (weight_items l <= String.length (dumps_items l) + 1)%nat).
    { clear - IH Hp. induction l as [ | x l IHl]; [simpl; lia | ].
      inversion IH as [ | x' l' Hx Hl]; subst.
      cbn [forallb] in Hp. apply andb_prop in Hp. destruct Hp as [Hpx Hpl].
      specialize (IHl Hl Hpl). specialize (Hx Hpx).
      destruct l as [ | y l].
      - cbn [weight_items dumps_items]. lia.
      - change (weight_items (x :: y :: l)) with (S (weight x + weight_items (y :: l))).
        change (dumps_items (x :: y :: l)) with (dumps x ++ ", " ++ dumps_items (y :: l)).
        rewrite !length_append. change (String.length ", ") with 2%nat. lia. }
    simpl String.length. lia.
  - rewrite weight_dict, dumps_dict. cbn [plain] in Hp.
    apply andb_prop in Hp. destruct Hp as [_ Hp].
    change ("{" ++ dumps_members kvs ++ "}") with (String "{" (dumps_members kvs ++ "}")).
    cbn [String.length]. rewrite length_append.
    assert (H : (weight_members kvs <= String.length (dumps_members kvs))%nat).
    { clear - IH Hp. induction kvs as [ | [k x] kvs IHl]; [simpl; lia | ].
      inversion IH as [ | x' l' Hx Hl]; subst. simpl snd in Hx.
      cbn [forallb] in Hp. apply andb_prop in Hp. destruct Hp as [Hpx Hpl].
      simpl snd in Hpx.
      specialize (IHl Hl Hpl). specialize (Hx Hpx).
      destruct kvs as [ | [k' y] kvs].
      - cbn [weight_members dumps_members]. rewrite !length_append.
        change (String.length ": ") with 2%nat. lia.
      - change (weight_members ((k, x) :: (k', y) :: kvs))
          with (S (weight x + weight_members ((k', y) :: kvs))).
        change (dumps_members ((k, x) :: (k', y) :: kvs))
          with (encode_str k ++ ": " ++ dumps x ++ ", " ++ dumps_members ((k', y) :: kvs)).
        rewrite !length_append. change (String.length ", ") with 2%nat. lia. }
    simpl String.length. lia.
Qed.

Theorem loads_dumps (v : value) :
  plain v = true -> Decoder.loads (dumps v) = inr v.
Proof.
  intro Hp. unfold Decoder.loads.
  rewrite (opens_value_skip_ws _ (dumps_opens v Hp)).
  pose proof (parse_value_dumps v Hp (2 * String.length (dumps v) + 2) EmptyString) as H.
  rewrite append_nil_r in H. rewrite H.
  - reflexivity.
  - pose proof (weight_le_length v Hp). lia.
  - reflexivity.
Qed.








(** ** Every exit of the handler *)

Lemma error_body_well_formed (status : Z) (msg : string) :
  In status [400%Z; 500%Z; 504%Z] ->
  well_formed (mkReply status None (Common.error_body msg)).
Proof.
  intro H. right. split; [exact H | ].
  split; [reflexivity | ]. exists msg. left. reflexivity.
Qed.

Lemma error_details_body_well_formed (status : Z) (msg details : string) :
  In status [400%Z; 500%Z; 504%Z] ->
  well_formed (mkReply status None (Common.error_details_body msg details)).
Proof.
  intro H. right. split; [exact H | ].
  split; [reflexivity | ]. exists msg. right. exists details. reflexivity.
Qed.

Lemma rbind_Ok {A B : Type} (r : result A) (k : A -> result B) (b : B) :
  (x <~ r ;; k x) = Ok b -> exists a, r = Ok a /\ k a = Ok b.
Proof.
  destruct r as [a | e]; simpl; intro H; [ | discriminate ].
  exists a. split; [reflexivity | exact H].
Qed.

Ltac rbind_inv H :=
  repeat match type of H with
    | rbind _ _ = Ok _ =>
        let a := fresh "a" in
        let E := fresh "E" in
        apply rbind_Ok in H; destruct H as (a & E & H)
    | (if ?b then _ else _) = Ok _ => destruct b
    end.

Lemma process_response_well_formed loads response reply :
  Common.process_response loads response = Ok reply -> well_formed reply.
Proof.
  unfold Common.process_response. intro H. rbind_inv H;
    injection H as <-.
  - apply error_body_well_formed. simpl. auto.
  - apply error_body_well_formed. simpl. auto.
  - left. split; [reflexivity | ].
    split; [reflexivity | ]. eexists. eexists. reflexivity.
Qed.

(** ** Plain values stay plain through the handler *)







Lemma plain_and_then (a : value) (b : result value) (x : value) :
  plain a = true -> (forall y, b = Ok y -> plain y = true) ->
  and_then a b = Ok x -> plain x = true.
Proof.
  unfold and_then. intros Ha Hb H. destruct (truthy a).
  - exact (Hb x H).
  - injection H as <-. exact Ha.
Qed.







Lemma try_block_returns (P : Reply -> Prop) loads post key schema event :
  P (mkReply 400 None (Common.error_body "Missing prompt in request data.")) ->
  (forall response reply,
      Common.process_response loads response = Ok reply -> P reply) ->
  returns P (Common.try_block loads post key schema event).
Proof.
  intros H400 Hprocess. unfold Common.try_block. returns_steps.
  - intro calls. unfold lift.
    destruct (Common.process_response loads a3) eqn:E; [ | exact I ].
    exact (Hprocess _ _ E).
  - exact H400.
Qed.

Lemma except_well_formed (e : exn) : well_formed (Research.except e).
Proof.
  unfold Research.except, Common.except_Exception.
  destruct (is_Timeout e); [ | destruct (is_RequestException e);
                               [ | destruct (is_JSONDecodeError e) ] ].
  - apply error_body_well_formed. simpl. auto.
  - apply error_details_body_well_formed. simpl. auto.
  - apply error_body_well_formed. simpl. auto.
  - apply error_details_body_well_formed. simpl. auto.
Qed.






(** C3: with GEMINI_API_KEY unset or empty, the handler returns 500 with the
    fixed missing-key message for every event, decoder and transport, and
    makes no outbound call. *)
Theorem handler_missing_key :
  forall loads post GEMINI_API_KEY event context,
    GEMINI_API_KEY = None \/ GEMINI_API_KEY = Some EmptyString ->
    Research.handler loads post GEMINI_API_KEY event context =
      (mkReply 500 None
         (Common.error_body
            "Server API Key is missing. Set GEMINI_API_KEY environment variable."),
       []).
Proof.
  intros loads post key event context [-> | ->]; reflexivity.
Qed.

Lemma handler_missing_key_witness :
  Research.handler Decoder.loads (stub (raise Timeout "timed out")) (Some EmptyString)
    (event_with_body "{}") VNone =
  (mkReply 500 None
     (Common.error_body
        "Server API Key is missing. Set GEMINI_API_KEY environment variable."),
   []).
Proof.
  apply handler_missing_key. right. reflexivity.
Defined.




(** ** The path through input validation *)

Lemma validated_event_with_body loads s data :
  s <> EmptyString -> loads s = inr (VDict data) ->
  validated loads (event_with_body s) data.
Proof.
  intros Hs Hl. exists [("body", VStr s)], s. repeat split; assumption.
Qed.

Lemma truthy_str (s : string) : s <> EmptyString -> truthy (VStr s) = true.
Proof.
  intro H. simpl. destruct (String.eqb_spec s EmptyString); [contradiction | reflexivity].
Qed.

Lemma bind_lift_Ok {A B : Type} (a : A) (k : A -> M B) calls :
  (x <- lift (Ok a) ;; k x) calls = k a calls.
Proof. reflexivity. Qed.

Lemma try_block_validated loads post key schema event data :
  validated loads event data ->
  let req := Common.upstream_request key schema (prompt_of data) in
  Common.try_block loads post key schema event [] =
    (match post req with
     | Ok response => Common.process_response loads response
     | Raise e => Raise e
     end, [req]).
Proof.
  intros (items & s & -> & Hbody & Hs & Hl) req.
  unfold Common.try_block, get, getitem. rewrite Hbody.
  rewrite bind_lift_Ok, (truthy_str s Hs), bind_lift_Ok.
  unfold json_loads. rewrite Hl, bind_lift_Ok.
  fold (prompt_of data). rewrite bind_lift_Ok. fold req.
  unfold bind, Common.requests_post, lift. simpl.
  destruct (post req); reflexivity.
Qed.

(** What the handler of [src/research.py] does with a validated event. *)
Lemma handler_validated loads post key event context data :
  Common.key_set key = true ->
  validated loads event data ->
  let req := Common.upstream_request key Research.RESPONSE_SCHEMA (prompt_of data) in
  Research.handler loads post key event context =
    (match post req with
     | Ok response =>
         match Common.process_response loads response with
         | Ok reply => reply
         | Raise e => Research.except e
         end
     | Raise e => Research.except e
     end, [req]).
Proof.
  intros Hkey Hv req. unfold Research.handler. rewrite Hkey. simpl negb. cbv iota.
  rewrite (try_block_validated loads post key _ event data Hv). fold req.
  destruct (post req) as [response | e]; [ | reflexivity ].
  destruct (Common.process_response loads response); reflexivity.
Qed.

(** ** The path through the upstream response *)

Lemma process_response_outer_decode_error loads response msg :
  success_status response ->
  loads (Requests.text response) = inl msg ->
  Common.process_response loads response = raise RequestsJSONDecodeError msg.
Proof.
  intros Hs Hl. unfold Common.process_response, success_status in *.
  rewrite Hs. simpl. unfold Requests.json. rewrite Hl. reflexivity.
Qed.

Lemma process_response_no_candidates_key loads response result :
  success_status response ->
  loads (Requests.text response) = inr (VDict result) ->
  lookup "candidates" result = None ->
  Common.process_response loads response =
    Ok (mkReply 500 None
          (Common.error_body "Gemini API returned an empty candidate list.")).
Proof.
  intros Hs Hl Hc. unfold Common.process_response, success_status in *.
  rewrite Hs. simpl. unfold Requests.json. rewrite Hl. simpl.
  rewrite Hc. reflexivity.
Qed.

Lemma process_response_empty_candidates loads response result :
  success_status response ->
  loads (Requests.text response) = inr (VDict result) ->
  lookup "candidates" result = Some (VList []) ->
  Common.process_response loads response =
    raise IndexError "list index out of range".
Proof.
  intros Hs Hl Hc. unfold Common.process_response, success_status in *.
  rewrite Hs. simpl. unfold Requests.json. rewrite Hl. simpl.
  rewrite Hc. reflexivity.
Qed.

Lemma rbind_ret {A B : Type} (a : A) (k : A -> result B) :
  (x <~ Ok a ;; k x) = k a.
Proof. reflexivity. Qed.

Lemma get_dict (items : list (string * value)) (k : string) (default x : value) :
  lookup k items = Some x -> get (VDict items) k default = Ok x.
Proof. intro H. unfold get. rewrite H. reflexivity. Qed.

Lemma get_dict_default (items : list (string * value)) (k : string) (default : value) :
  lookup k items = None -> get (VDict items) k default = Ok default.
Proof. intro H. unfold get. rewrite H. reflexivity. Qed.

Lemma process_response_structured loads response candidate json_text :
  success_status response ->
  first_candidate loads response (VDict candidate) ->
  structured_text candidate json_text ->
  Common.process_response loads response =
    (research_data <~ json_loads loads (VStr json_text) ;;
     sources <~ Common.extract_sources (grounding_metadata_of candidate) ;;
     Ok (mkReply 200 (Some [("Content-Type", "application/json")])
           (dumps (VDict [("research", research_data);
                          ("sources", VList sources)])))).
Proof.
  intros Hs (result & rest & Hl & Hc) (content & part & prest & H1 & H2 & H3 & H4).
  unfold Common.process_response, success_status in *.
  rewrite Hs, rbind_ret. unfold Requests.json. rewrite Hl, rbind_ret.
  rewrite (get_dict _ _ _ _ Hc), rbind_ret.
  change (getitem0 (VList (VDict candidate :: rest))) with (Ok (VDict candidate)).
  rewrite rbind_ret.
  assert (Ht : truthy (VDict candidate) = true).
  { destruct candidate; [discriminate H1 | reflexivity]. }
  rewrite Ht. simpl negb. cbv iota.
  rewrite (get_dict _ _ _ _ H1), rbind_ret.
  rewrite (get_dict _ _ _ _ H2), rbind_ret.
  change (getitem0 (VList (VDict part :: prest))) with (Ok (VDict part)).
  rewrite rbind_ret.
  rewrite (get_dict _ _ _ _ H3), rbind_ret.
  change (get (VDict candidate) "groundingMetadata" (VDict []))
    with (Ok (grounding_metadata_of candidate)).
  rewrite rbind_ret.
  rewrite (truthy_str json_text H4). reflexivity.
Qed.

(** ** Citation extraction *)

Lemma spec_sources_cons (attribution : value) (rest : list value) :
  spec_sources (attribution :: rest) =
    if has_uri attribution then source_of attribution :: spec_sources rest
    else spec_sources rest.
Proof.
  unfold spec_sources. simpl. destruct (has_uri attribution); reflexivity.
Qed.

(** One turn of the loop on a readable attribution. *)
Lemma for_attribution_step (attribution : value) (rest sources : list value) :
  readable attribution = true ->
  Common.for_attribution (attribution :: rest) sources =
    Common.for_attribution rest
      (if has_uri attribution then (sources ++ [source_of attribution])%list
       else sources).
Proof.
  intro Ha. cbn [Common.for_attribution].
  destruct attribution as [ | | | | | | items]; try discriminate Ha.
  unfold readable in Ha. unfold has_uri, source_of, web_of, get at 1.
  destruct (lookup "web" items) as [web | ]; rewrite rbind_ret.
  - destruct web as [ | b | n | r | s | l | web ].
    1-6: unfold and_then; rewrite (proj1 (negb_true_iff _) Ha), rbind_ret;
         rewrite (proj1 (negb_true_iff _) Ha); reflexivity.
    unfold and_then. destruct web as [ | kv web'] eqn:Eweb; [reflexivity | ].
    rewrite <- Eweb.
    replace (truthy (VDict web)) with true by (subst; reflexivity).
    unfold get at 1. rewrite rbind_ret.
    destruct (lookup "uri" web) as [uri | ] eqn:Euri; [ | reflexivity ].
    destruct (truthy uri) eqn:Et; [ | reflexivity ].
    unfold getitem. rewrite Euri, rbind_ret. unfold get. rewrite rbind_ret.
    reflexivity.
  - reflexivity.
Qed.

Lemma for_attribution_spec (attributions : list value) :
  forallb readable attributions = true ->
  forall sources,
    Common.for_attribution attributions sources =
      Ok (sources ++ spec_sources attributions)%list.
Proof.
  induction attributions as [ | attribution rest IH]; intros Hr sources.
  - simpl. rewrite app_nil_r. reflexivity.
  - simpl in Hr. apply andb_prop in Hr. destruct Hr as [Ha Hrest].
    rewrite (for_attribution_step _ _ _ Ha), (IH Hrest), spec_sources_cons.
    destruct (has_uri attribution); [ | reflexivity ].
    rewrite <- app_assoc. reflexivity.
Qed.

Lemma extract_sources_spec candidate attributions :
  grounding candidate attributions ->
  forallb readable attributions = true ->
  Common.extract_sources (grounding_metadata_of candidate) =
    Ok (spec_sources attributions).
Proof.
  intros Hg Hr. unfold grounding_metadata_of.
  destruct Hg as [Hm | metadata Hm Ha | metadata attributions Hm Ha]; rewrite Hm.
  - reflexivity.
  - unfold Common.extract_sources, and_then.
    destruct metadata as [ | kv metadata']; [reflexivity | ].
    simpl truthy. cbv iota. rewrite get_dict_default by exact Ha. reflexivity.
  - unfold Common.extract_sources, and_then.
    destruct metadata as [ | kv metadata'] eqn:E; [discriminate Ha | ].
    rewrite <- E in *. replace (truthy (VDict metadata)) with true by (subst; reflexivity).
    rewrite (get_dict _ _ _ _ Ha), rbind_ret.
    destruct attributions as [ | a rest]; [reflexivity | ].
    simpl truthy. cbv iota.
    unfold getitem. rewrite Ha, rbind_ret. unfold iter. rewrite rbind_ret.
    rewrite (for_attribution_spec _ Hr). reflexivity.
Qed.

(** ** Input validation (C1, C2) *)

Lemma handler_unparsable_body loads post key items s msg context :
  Common.key_set key = true ->
  lookup "body" items = Some (VStr s) ->
  s <> EmptyString ->
  loads s = inl msg ->
  Research.handler loads post key (VDict items) context =
    (mkReply 500 None
       (Common.error_body
          "Failed to parse JSON response from AI model. Check prompt/schema alignment."),
     []).
Proof.
  intros Hkey Hbody Hs Hl. unfold Research.handler. rewrite Hkey. simpl negb. cbv iota.
  unfold Common.try_block, get, getitem. rewrite Hbody.
  rewrite bind_lift_Ok, (truthy_str s Hs), bind_lift_Ok.
  unfold json_loads. rewrite Hl. reflexivity.
Qed.

(** C1 (the code departs from it): an event whose body decodes to a dict
    without [prompt], with an empty prompt or with a prompt of spaces only
    is not answered with 400: the handler calls the upstream once, with
    prompt [None], the empty string or the spaces, and relays its answer,
    here with status 200. *)
Theorem handler_forwards_missing_or_blank_prompt :
  let post := stub (Ok (answer (dumps (VDict
                 [("candidates",
                   VList [VDict (candidate_with (dumps empty_research) [])])])))) in
  Research.handler Decoder.loads post test_key (event_with_body "{}") VNone =
    (success_reply_of empty_research [],
     [Common.upstream_request test_key Research.RESPONSE_SCHEMA VNone]) /\
  Research.handler Decoder.loads post test_key
    (event_with_body (dumps (VDict [("prompt", VStr EmptyString)]))) VNone =
    (success_reply_of empty_research [],
     [Common.upstream_request test_key Research.RESPONSE_SCHEMA (VStr EmptyString)]) /\
  Research.handler Decoder.loads post test_key
    (event_with_body (dumps (VDict [("prompt", VStr "   ")]))) VNone =
    (success_reply_of empty_research [],
     [Common.upstream_request test_key Research.RESPONSE_SCHEMA (VStr "   ")]).
Proof.
  split; [ | split]; vm_compute; reflexivity.
Qed.

(** C2 (the code departs from it): a body that is present and does not
    decode makes no upstream call, but the reply is the 500 of the
    [json.JSONDecodeError] clause, whose message speaks of the AI model's
    response, not a 400. *)
Theorem handler_unparsable_body_is_500 :
  Research.handler Decoder.loads (stub (Ok (answer "{}"))) test_key
    (event_with_body "{prompt: hello") VNone =
    (mkReply 500 None
       (Common.error_body
          "Failed to parse JSON response from AI model. Check prompt/schema alignment."),
     []).
Proof.
  apply handler_unparsable_body with (s := "{prompt: hello") (msg := "Expecting value");
    [reflexivity | reflexivity | discriminate | vm_compute; reflexivity].
Qed.

(** ** The candidate list (C5, C10) *)

Lemma handler_empty_candidates loads post key event context data response result :
  Common.key_set key = true ->
  validated loads event data ->
  post (Common.upstream_request key Research.RESPONSE_SCHEMA (prompt_of data))
    = Ok response ->
  success_status response ->
  loads (Requests.text response) = inr (VDict result) ->
  lookup "candidates" result = Some (VList []) ->
  Research.handler loads post key event context =
    (mkReply 500 None
       (Common.error_details_body
          "An unexpected server error occurred: list index out of range"
          "list index out of range"),
     [Common.upstream_request key Research.RESPONSE_SCHEMA (prompt_of data)]).
Proof.
  intros Hkey Hv Hpost Hs Hl Hc.
  rewrite (handler_validated loads post key event context data Hkey Hv), Hpost.
  rewrite (process_response_empty_candidates loads response result Hs Hl Hc).
  reflexivity.
Qed.

(** C5 (the code departs from it): when the upstream body is
    [{"candidates": []}], taking [candidates[0]] raises [IndexError] before
    the emptiness test is reached; the reply is the 500 of the catch-all
    clause, with the message "An unexpected server error occurred: list
    index out of range", and not the empty-candidate-list message. *)
Theorem handler_empty_candidates_is_unexpected_error :
  let reply :=
    fst (Research.handler Decoder.loads
           (stub (Ok (answer (dumps (VDict [("candidates", VList [])])))))
           test_key prompt_event VNone) in
  reply =
    mkReply 500 None
      (Common.error_details_body
         "An unexpected server error occurred: list index out of range"
         "list index out of range") /\
  body reply <>
    Common.error_body "Gemini API returned an empty candidate list.".
Proof.
  split.
  - vm_compute. reflexivity.
  - vm_compute. discriminate.
Qed.

(** C10: when the upstream body of a 2xx response decodes to a dict with no
    [candidates] key, the default [[{}]] makes the first candidate the empty
    dict, which is false: the handler returns 500 with the
    empty-candidate-list message, after its one upstream call. *)
Theorem handler_missing_candidates_key :
  forall loads post key event context data response result,
    Common.key_set key = true ->
    validated loads event data ->
    post (Common.upstream_request key Research.RESPONSE_SCHEMA (prompt_of data))
      = Ok response ->
    success_status response ->
    loads (Requests.text response) = inr (VDict result) ->
    lookup "candidates" result = None ->
    Research.handler loads post key event context =
      (mkReply 500 None
         (Common.error_body "Gemini API returned an empty candidate list."),
       [Common.upstream_request key Research.RESPONSE_SCHEMA (prompt_of data)]).
Proof.
  intros loads post key event context data response result Hkey Hv Hpost Hs Hl Hc.
  rewrite (handler_validated loads post key event context data Hkey Hv), Hpost.
  rewrite (process_response_no_candidates_key loads response result Hs Hl Hc).
  reflexivity.
Qed.

Lemma handler_missing_candidates_key_witness :
  Research.handler Decoder.loads
    (stub (Ok (answer (dumps (VDict [("usageMetadata", VDict [])])))))
    test_key prompt_event VNone =
    (mkReply 500 None
       (Common.error_body "Gemini API returned an empty candidate list."),
     [Common.upstream_request test_key Research.RESPONSE_SCHEMA
        (VStr "component libraries")]).
Proof.
  apply (handler_missing_candidates_key Decoder.loads _ test_key prompt_event VNone
           [("prompt", VStr "component libraries")]
           (answer (dumps (VDict [("usageMetadata", VDict [])])))
           [("usageMetadata", VDict [])]).
  - reflexivity.
  - apply validated_event_with_body; [discriminate | vm_compute; reflexivity].
  - reflexivity.
  - reflexivity.
  - vm_compute. reflexivity.
  - reflexivity.
Defined.

(** ** Timeouts (C6) *)

Lemma handler_timeout loads post key event context data e :
  Common.key_set key = true ->
  validated loads event data ->
  post (Common.upstream_request key Research.RESPONSE_SCHEMA (prompt_of data))
    = Raise e ->
  is_Timeout e = true ->
  Research.handler loads post key event context =
    (mkReply 504 None (Common.error_body "The AI research request timed out."),
     [Common.upstream_request key Research.RESPONSE_SCHEMA (prompt_of data)]).
Proof.
  intros Hkey Hv Hpost He.
  rewrite (handler_validated loads post key event context data Hkey Hv), Hpost.
  unfold Research.except. rewrite He. reflexivity.
Qed.

(** C6 (amended): when the one upstream call of a validated event, made
    with the timeout of 30, raises a timeout ([requests.exceptions.Timeout]
    or a subclass), the handler of [src/research.py] returns 504 with "The
    AI research request timed out.", after that one call.  The statement is
    of this handler alone: [src/netlify/functions/research.py] binds no
    handler. *)
Theorem handler_timeout_is_504 :
  forall loads post key event context data e,
    Common.key_set key = true ->
    validated loads event data ->
    post (Common.upstream_request key Research.RESPONSE_SCHEMA (prompt_of data))
      = Raise e ->
    is_Timeout e = true ->
    Research.handler loads post key event context =
      (mkReply 504 None (Common.error_body "The AI research request timed out."),
       [Common.upstream_request key Research.RESPONSE_SCHEMA (prompt_of data)]) /\
    Requests.timeout
      (Common.upstream_request key Research.RESPONSE_SCHEMA (prompt_of data)) = 30%Z.
Proof.
  intros loads post key event context data e Hkey Hv Hpost He.
  split; [exact (handler_timeout loads post key event context data e Hkey Hv Hpost He) | ].
  reflexivity.
Qed.

Lemma handler_timeout_is_504_witness :
  let post := stub (raise Timeout "Read timed out. (read timeout=30)") in
  Research.handler Decoder.loads post test_key prompt_event VNone =
    (mkReply 504 None (Common.error_body "The AI research request timed out."),
     [Common.upstream_request test_key Research.RESPONSE_SCHEMA
        (VStr "component libraries")]) /\
  Requests.timeout
    (Common.upstream_request test_key Research.RESPONSE_SCHEMA
       (VStr "component libraries")) = 30%Z.
Proof.
  apply (handler_timeout_is_504 Decoder.loads
           (stub (raise Timeout "Read timed out. (read timeout=30)"))
           test_key prompt_event VNone
           [("prompt", VStr "component libraries")]
           (mkExn Timeout "Read timed out. (read timeout=30)")).
  - reflexivity.
  - apply validated_event_with_body; [discriminate | vm_compute; reflexivity].
  - reflexivity.
  - reflexivity.
Defined.

(** C6 as it was stated fails for the second copy: importing
    [src/netlify/functions/research.py] raises, so calling its handler on
    the event of a request with a prompt gives no reply, whatever the
    transport does, and none with status 504. *)
Lemma netlify_copy_returns_no_504 :
  NetlifyFunctionsResearch.invoke prompt_event VNone =
    Raise NetlifyFunctionsResearch.compile_error /\
  ~ exists reply calls,
      NetlifyFunctionsResearch.invoke prompt_event VNone = Ok (reply, calls) /\
      statusCode reply = 504%Z.
Proof.
  split; [reflexivity | ].
  intros (reply & calls & H & _). discriminate H.
Qed.

(** ** The two decoding failures (C7) *)

Lemma outer_inner_bodies_differ (msg : string) :
  Common.error_details_body (outer_decode_message msg) msg <>
  Common.error_body inner_decode_message.
Proof.
  unfold Common.error_details_body, Common.error_body, outer_decode_message,
    inner_decode_message.
  cbn. discriminate.
Qed.

(** C7: after a 2xx upstream response, a body that does not decode and a
    structured text that does not decode both give status 500, with
    different error bodies.  The first failure is raised by
    [response.json()] as requests' [JSONDecodeError], a [RequestException],
    and is reported by that clause with the decoder's message; the second is
    a [json.JSONDecodeError] and gets the fixed parse-failure message. *)
Theorem decode_failures_are_distinct :
  forall loads key event context data
         post_outer response_outer msg_outer
         post_inner response_inner candidate json_text msg_inner,
    Common.key_set key = true ->
    validated loads event data ->
    post_outer (Common.upstream_request key Research.RESPONSE_SCHEMA (prompt_of data))
      = Ok response_outer ->
    success_status response_outer ->
    loads (Requests.text response_outer) = inl msg_outer ->
    post_inner (Common.upstream_request key Research.RESPONSE_SCHEMA (prompt_of data))
      = Ok response_inner ->
    success_status response_inner ->
    first_candidate loads response_inner (VDict candidate) ->
    structured_text candidate json_text ->
    loads json_text = inl msg_inner ->
    let outer := fst (Research.handler loads post_outer key event context) in
    let inner := fst (Research.handler loads post_inner key event context) in
    outer = mkReply 500 None
              (Common.error_details_body (outer_decode_message msg_outer) msg_outer) /\
    inner = mkReply 500 None (Common.error_body inner_decode_message) /\
    body outer <> body inner.
Proof.
  intros loads key event context data post_outer response_outer msg_outer
    post_inner response_inner candidate json_text msg_inner
    Hkey Hv Hpo Hso Hlo Hpi Hsi Hc Ht Hli outer inner.
  assert (Ho : outer = mkReply 500 None
                 (Common.error_details_body (outer_decode_message msg_outer) msg_outer)).
  { subst outer.
    rewrite (handler_validated loads post_outer key event context data Hkey Hv), Hpo.
    rewrite (process_response_outer_decode_error loads response_outer msg_outer Hso Hlo).
    reflexivity. }
  assert (Hi : inner = mkReply 500 None (Common.error_body inner_decode_message)).
  { subst inner.
    rewrite (handler_validated loads post_inner key event context data Hkey Hv), Hpi.
    rewrite (process_response_structured loads response_inner candidate json_text
               Hsi Hc Ht).
    unfold json_loads. rewrite Hli. reflexivity. }
  rewrite Ho, Hi. repeat split. apply outer_inner_bodies_differ.
Qed.

Lemma decode_failures_are_distinct_witness :
  let outer :=
    fst (Research.handler Decoder.loads (stub (Ok (answer "<html>Bad gateway</html>")))
           test_key prompt_event VNone) in
  let inner :=
    fst (Research.handler Decoder.loads
           (stub (Ok (answer (dumps (VDict
              [("candidates", VList [VDict (candidate_with "Here is the JSON:" [])])])))))
           test_key prompt_event VNone) in
  outer = mkReply 500 None
            (Common.error_details_body (outer_decode_message "Expecting value")
               "Expecting value") /\
  inner = mkReply 500 None (Common.error_body inner_decode_message) /\
  body outer <> body inner.
Proof.
  apply (decode_failures_are_distinct Decoder.loads test_key prompt_event VNone
           [("prompt", VStr "component libraries")]
           _ (answer "<html>Bad gateway</html>") "Expecting value"
           _ (answer (dumps (VDict
                [("candidates", VList [VDict (candidate_with "Here is the JSON:" [])])])))
           (candidate_with "Here is the JSON:" []) "Here is the JSON:"
           "Expecting value").
  - reflexivity.
  - apply validated_event_with_body; [discriminate | vm_compute; reflexivity].
  - reflexivity.
  - reflexivity.
  - vm_compute. reflexivity.
  - reflexivity.
  - reflexivity.
  - eexists. eexists. split; [vm_compute; reflexivity | reflexivity].
  - exists [("parts", VList [VDict [("text", VStr "Here is the JSON:")]])],
      [("text", VStr "Here is the JSON:")], [].
    split; [reflexivity | ]. split; [reflexivity | ].
    split; [reflexivity | discriminate].
  - vm_compute. reflexivity.
Defined.

(** ** The success reply (C8, C9) *)

Lemma structured_text_candidate_with json_text extra :
  json_text <> EmptyString ->
  structured_text (candidate_with json_text extra) json_text.
Proof.
  intro H.
  exists [("parts", VList [VDict [("text", VStr json_text)]])],
    [("text", VStr json_text)], [].
  split; [reflexivity | ]. split; [reflexivity | ]. split; [reflexivity | exact H].
Qed.

Lemma handler_success loads post key event context data response candidate
  json_text research sources :
  Common.key_set key = true ->
  validated loads event data ->
  post (Common.upstream_request key Research.RESPONSE_SCHEMA (prompt_of data))
    = Ok response ->
  success_status response ->
  first_candidate loads response (VDict candidate) ->
  structured_text candidate json_text ->
  loads json_text = inr research ->
  Common.extract_sources (grounding_metadata_of candidate) = Ok sources ->
  Research.handler loads post key event context =
    (success_reply_of research sources,
     [Common.upstream_request key Research.RESPONSE_SCHEMA (prompt_of data)]).
Proof.
  intros Hkey Hv Hpost Hs Hc Ht Hl He.
  rewrite (handler_validated loads post key event context data Hkey Hv), Hpost.
  rewrite (process_response_structured loads response candidate json_text Hs Hc Ht).
  unfold json_loads. rewrite Hl, rbind_ret, He. reflexivity.
Qed.






(** ** Events that do not pass input validation *)

Lemma bind_lift_Raise {A B : Type} (e : exn) (k : A -> M B) calls :
  (x <- lift (Raise e) ;; k x) calls = (Raise e, calls).
Proof. reflexivity. Qed.

(** X1: when the key is set and the event is a dict whose [body] is absent
    or false for Python ([None], the empty string, an empty list, ...), the
    handler returns 400 with "Missing prompt in request data." and makes no
    upstream call. *)
Theorem handler_body_absent_or_empty :
  forall loads post key items context,
    Common.key_set key = true ->
    truthy (match lookup "body" items with Some b => b | None => VNone end) = false ->
    Research.handler loads post key (VDict items) context =
      (mkReply 400 None (Common.error_body "Missing prompt in request data."), []).
Proof.
  intros loads post key items context Hkey Hbody.
  unfold Research.handler. rewrite Hkey.
  simpl negb. cbv iota. unfold Common.try_block, get.
  rewrite !bind_lift_Ok, Hbody. reflexivity.
Qed.

Lemma handler_body_absent_or_empty_witness :
  Research.handler Decoder.loads (stub (Ok (answer "{}"))) test_key
    (VDict [("httpMethod", VStr "POST"); ("body", VNone)]) VNone =
    (mkReply 400 None (Common.error_body "Missing prompt in request data."), []).
Proof.
  apply handler_body_absent_or_empty; reflexivity.
Defined.

(** X2: when the key is set and the event is not a dict, [event.get] raises
    [AttributeError] inside the [try] block: the handler returns the 500 of
    the catch-all clause, whose message names the type of the event, and
    makes no upstream call. *)
Theorem handler_event_not_a_dict :
  forall loads post key event context,
    Common.key_set key = true ->
    (forall items, event <> VDict items) ->
    Research.handler loads post key event context =
      (mkReply 500 None
         (Common.error_details_body
            ("An unexpected server error occurred: '" ++ type_name event
             ++ "' object has no attribute 'get'")
            ("'" ++ type_name event ++ "' object has no attribute 'get'")),
       []).
Proof.
  intros loads post key event context Hkey Hevent.
  unfold Research.handler. rewrite Hkey. simpl negb. cbv iota.
  destruct event; try reflexivity.
  exfalso. exact (Hevent _ eq_refl).
Qed.

Lemma handler_event_not_a_dict_witness :
  Research.handler Decoder.loads (stub (Ok (answer "{}"))) test_key VNone VNone =
    (mkReply 500 None
       (Common.error_details_body
          "An unexpected server error occurred: 'NoneType' object has no attribute 'get'"
          "'NoneType' object has no attribute 'get'"),
     []).
Proof.
  apply (handler_event_not_a_dict Decoder.loads _ test_key VNone VNone);
    [reflexivity | discriminate].
Defined.

(** X3: when the key is set and the [body] of the event is true for Python
    but is not a [str] (a body that is already a dict, say), [json.loads]
    raises [TypeError]: the handler returns the 500 of the catch-all clause,
    with the message of [json.loads], and makes no upstream call. *)
Theorem handler_body_not_a_str :
  forall loads post key items body context,
    Common.key_set key = true ->
    lookup "body" items = Some body ->
    truthy body = true ->
    (forall s, body <> VStr s) ->
    Research.handler loads post key (VDict items) context =
      (mkReply 500 None
         (Common.error_details_body
            ("An unexpected server error occurred: "
             ++ "the JSON object must be str, bytes or bytearray, not "
             ++ type_name body)
            ("the JSON object must be str, bytes or bytearray, not "
             ++ type_name body)),
       []).
Proof.
  intros loads post key items body context Hkey Hbody Ht Hs.
  unfold Research.handler. rewrite Hkey. simpl negb. cbv iota.
  unfold Common.try_block, get, getitem. rewrite Hbody.
  rewrite bind_lift_Ok, Ht, bind_lift_Ok.
  destruct body; try reflexivity.
  exfalso. exact (Hs _ eq_refl).
Qed.

Lemma handler_body_not_a_str_witness :
  Research.handler Decoder.loads (stub (Ok (answer "{}"))) test_key
    (VDict [("body", VDict [("prompt", VStr "component libraries")])]) VNone =
    (mkReply 500 None
       (Common.error_details_body
          "An unexpected server error occurred: the JSON object must be str, bytes or bytearray, not dict"
          "the JSON object must be str, bytes or bytearray, not dict"),
     []).
Proof.
  apply (handler_body_not_a_str Decoder.loads _ test_key
           [("body", VDict [("prompt", VStr "component libraries")])]
           (VDict [("prompt", VStr "component libraries")]) VNone);
    [reflexivity | reflexivity | reflexivity | discriminate].
Defined.

(** X4: when the key is set and the body is a non-empty [str] that decodes
    to something that is not a dict (a list, a string, a number, [null]),
    [data.get] raises [AttributeError]: the handler returns the 500 of the
    catch-all clause and makes no upstream call. *)
Theorem handler_body_decodes_to_non_dict :
  forall loads post key items s data context,
    Common.key_set key = true ->
    lookup "body" items = Some (VStr s) ->
    s <> EmptyString ->
    loads s = inr data ->
    (forall members, data <> VDict members) ->
    Research.handler loads post key (VDict items) context =
      (mkReply 500 None
         (Common.error_details_body
            ("An unexpected server error occurred: '" ++ type_name data
             ++ "' object has no attribute 'get'")
            ("'" ++ type_name data ++ "' object has no attribute 'get'")),
       []).
Proof.
  intros loads post key items s data context Hkey Hbody Hs Hl Hdata.
  unfold Research.handler. rewrite Hkey. simpl negb. cbv iota.
  unfold Common.try_block, get at 1, getitem. rewrite Hbody.
  rewrite bind_lift_Ok, (truthy_str s Hs), bind_lift_Ok.
  unfold json_loads. rewrite Hl, bind_lift_Ok.
  destruct data; try reflexivity.
  exfalso. exact (Hdata _ eq_refl).
Qed.

Lemma handler_body_decodes_to_non_dict_witness :
  Research.handler Decoder.loads (stub (Ok (answer "{}"))) test_key
    (event_with_body "[1, 2]") VNone =
    (mkReply 500 None
       (Common.error_details_body
          "An unexpected server error occurred: 'list' object has no attribute 'get'"
          "'list' object has no attribute 'get'"),
     []).
Proof.
  apply (handler_body_decodes_to_non_dict Decoder.loads _ test_key
           [("body", VStr "[1, 2]")] "[1, 2]" (VList [VInt 1; VInt 2]) VNone);
    [reflexivity | reflexivity | discriminate | vm_compute; reflexivity | discriminate].
Defined.

(** ** The outbound call *)

Lemma try_block_no_call_unless_validated loads post key schema event :
  snd (Common.try_block loads post key schema event []) <> [] ->
  exists data, validated loads event data.
Proof.
  intro H. unfold Common.try_block in H.
  destruct event as [ | | | | | | items]; try (exfalso; apply H; reflexivity).
  unfold get at 1, getitem in H.
  destruct (lookup "body" items) as [b | ] eqn:Hbody;
    [ | exfalso; apply H; reflexivity ].
  rewrite bind_lift_Ok in H.
  destruct (truthy b) eqn:Ht; [ | exfalso; apply H; reflexivity ].
  rewrite bind_lift_Ok in H.
  destruct b as [ | | | | s | | ]; try (exfalso; apply H; reflexivity).
  unfold json_loads in H.
  destruct (loads s) as [msg | data] eqn:Hl; [exfalso; apply H; reflexivity | ].
  rewrite bind_lift_Ok in H.
  destruct data as [ | | | | | | members]; try (exfalso; apply H; reflexivity).
  exists members, items, s. repeat split; try assumption.
  intros ->. discriminate Ht.
Qed.

(** X5: with the key set, the handler calls the upstream exactly when the
    event passes input validation (a dict whose body is a non-empty [str]
    that decodes to a dict), and then exactly once, whatever the upstream
    does: there is no retry, and no call for a request it rejects. *)
Theorem handler_calls_iff_validated :
  forall loads post key event context,
    Common.key_set key = true ->
    let calls := snd (Research.handler loads post key event context) in
    ((exists data, validated loads event data) <-> calls <> []) /\
    (forall data,
        validated loads event data ->
        calls = [Common.upstream_request key Research.RESPONSE_SCHEMA (prompt_of data)]).
Proof.
  intros loads post key event context Hkey calls.
  assert (Hv : forall data, validated loads event data ->
                 calls = [Common.upstream_request key Research.RESPONSE_SCHEMA
                            (prompt_of data)]).
  { intros data Hd. subst calls.
    rewrite (handler_validated loads post key event context data Hkey Hd).
    reflexivity. }
  split; [ | exact Hv ]. split.
  - intros (data & Hd). rewrite (Hv data Hd). discriminate.
  - intro Hc. subst calls. unfold Research.handler in Hc. rewrite Hkey in Hc.
    simpl negb in Hc. cbv iota in Hc.
    apply (try_block_no_call_unless_validated loads post key
             Research.RESPONSE_SCHEMA event).
    destruct (Common.try_block loads post key Research.RESPONSE_SCHEMA event [])
      as [[r | e] cs]; exact Hc.
Qed.

Lemma handler_calls_iff_validated_witness :
  let calls :=
    snd (Research.handler Decoder.loads
           (stub (raise RequestException "Connection refused"))
           test_key prompt_event VNone) in
  ((exists data, validated Decoder.loads prompt_event data) <-> calls <> []) /\
  (forall data,
      validated Decoder.loads prompt_event data ->
      calls = [Common.upstream_request test_key Research.RESPONSE_SCHEMA
                 (prompt_of data)]).
Proof.
  apply (handler_calls_iff_validated Decoder.loads
           (stub (raise RequestException "Connection refused"))
           test_key prompt_event VNone).
  reflexivity.
Defined.

Lemma payload_plain (schema user_prompt : value) :
  plain schema = true -> plain user_prompt = true ->
  plain (Common.payload schema user_prompt) = true.
Proof.
  intros Hs Hp. unfold Common.payload.
  cbn [plain unique_keys lookup forallb snd String.eqb Ascii.eqb Bool.eqb andb].
  rewrite Hs, Hp. reflexivity.
Qed.

(** X6: the one request of a validated event goes to the generateContent
    URL of the model, with the key as its [key] parameter, the JSON content
    type and the timeout of 30; its body is [json.dumps] of the payload,
    which holds [data.get('prompt')] at [contents[0].parts[0].text],
    unchanged, whatever it is.  When the prompt is plain (holds no
    floating-point number) the body is JSON: the decoder reads the payload
    back from it. *)
Theorem upstream_request_carries_prompt :
  forall loads post k event context data,
    k <> EmptyString ->
    validated loads event data ->
    exists req,
      snd (Research.handler loads post (Some k) event context) = [req] /\
      Requests.url req =
        "https://generativelanguage.googleapis.com/v1beta/models/gemini-2.5-flash-preview-09-2025:generateContent?key="
        ++ k /\
      Requests.headers req = [("Content-Type", "application/json")] /\
      Requests.timeout req = 30%Z /\
      Requests.data req =
        dumps (Common.payload Research.RESPONSE_SCHEMA (prompt_of data)) /\
      (contents <~ get (Common.payload Research.RESPONSE_SCHEMA (prompt_of data))
                     "contents" VNone ;;
       content <~ getitem0 contents ;;
       parts <~ get content "parts" VNone ;;
       part <~ getitem0 parts ;;
       get part "text" VNone) = Ok (prompt_of data) /\
      (plain (prompt_of data) = true ->
       Decoder.loads (Requests.data req) =
         inr (Common.payload Research.RESPONSE_SCHEMA (prompt_of data))).
Proof.
  intros loads post k event context data Hk Hv.
  assert (Hkey : Common.key_set (Some k) = true).
  { simpl. destruct (String.eqb_spec k EmptyString); [contradiction | reflexivity]. }
  exists (Common.upstream_request (Some k) Research.RESPONSE_SCHEMA (prompt_of data)).
  rewrite (handler_validated loads post (Some k) event context data Hkey Hv).
  split; [reflexivity | ]. split; [reflexivity | ]. split; [reflexivity | ].
  split; [reflexivity | ]. split; [reflexivity | ]. split; [reflexivity | ].
  intro Hp.
  apply (loads_dumps (Common.payload Research.RESPONSE_SCHEMA (prompt_of data))).
  apply payload_plain; [vm_compute; reflexivity | exact Hp].
Qed.

Lemma upstream_request_carries_prompt_witness :
  exists req,
    snd (Research.handler Decoder.loads (stub (raise Timeout "timed out"))
           test_key prompt_event VNone) = [req] /\
    Requests.url req =
      "https://generativelanguage.googleapis.com/v1beta/models/gemini-2.5-flash-preview-09-2025:generateContent?key="
      ++ "test-key" /\
    Requests.headers req = [("Content-Type", "application/json")] /\
    Requests.timeout req = 30%Z /\
    Requests.data req =
      dumps (Common.payload Research.RESPONSE_SCHEMA (VStr "component libraries")) /\
    (contents <~ get (Common.payload Research.RESPONSE_SCHEMA
                        (VStr "component libraries")) "contents" VNone ;;
     content <~ getitem0 contents ;;
     parts <~ get content "parts" VNone ;;
     part <~ getitem0 parts ;;
     get part "text" VNone) = Ok (VStr "component libraries") /\
    Decoder.loads (Requests.data req) =
      inr (Common.payload Research.RESPONSE_SCHEMA (VStr "component libraries")).
Proof.
  destruct (upstream_request_carries_prompt Decoder.loads
              (stub (raise Timeout "timed out")) "test-key" prompt_event VNone
              [("prompt", VStr "component libraries")])
    as (req & H1 & H2 & H3 & H4 & H5 & H6 & H7).
  - discriminate.
  - apply validated_event_with_body; [discriminate | vm_compute; reflexivity].
  - exists req. repeat (split; [assumption | ]). apply H7. reflexivity.
Defined.

(** ** Upstream failures *)

(** X7: when the upstream answers a validated request with a 4xx or 5xx
    status, [raise_for_status] raises and the handler returns 500 with
    "Failed to communicate with the Gemini API: " followed by the status
    line of the error ("<status> Client Error: <reason> for url: <url>", or
    "Server Error" from 500 on), repeated under [details]; the body of the
    upstream answer is not read. *)
Theorem handler_upstream_http_error :
  forall loads post key event context data response,
    Common.key_set key = true ->
    validated loads event data ->
    post (Common.upstream_request key Research.RESPONSE_SCHEMA (prompt_of data))
      = Ok response ->
    (400 <= Requests.status_code response < 600)%Z ->
    let status_line :=
      encode_int (Requests.status_code response)
      ++ (if Z.ltb (Requests.status_code response) 500
          then " Client Error: " else " Server Error: ")
      ++ Requests.reason response ++ " for url: " ++ Requests.response_url response in
    fst (Research.handler loads post key event context) =
      mkReply 500 None
        (Common.error_details_body
           ("Failed to communicate with the Gemini API: " ++ status_line)
           status_line).
Proof.
  intros loads post key event context data response Hkey Hv Hpost Hstatus line.
  rewrite (handler_validated loads post key event context data Hkey Hv), Hpost.
  unfold Common.process_response, Requests.raise_for_status. subst line.
  destruct (Z.ltb_spec (Requests.status_code response) 500) as [Hlt | Hge].
  - replace (Z.leb 400 (Requests.status_code response)) with true
      by (symmetry; apply Z.leb_le; lia).
    reflexivity.
  - replace (Z.leb 400 (Requests.status_code response)) with true
      by (symmetry; apply Z.leb_le; lia).
    replace (Z.leb 500 (Requests.status_code response)) with true
      by (symmetry; apply Z.leb_le; lia).
    replace (Z.ltb (Requests.status_code response) 600) with true
      by (symmetry; apply Z.ltb_lt; lia).
    reflexivity.
Qed.

Lemma handler_upstream_http_error_witness :
  fst (Research.handler Decoder.loads
         (stub (Ok (Requests.mkResponse 429 "Too Many Requests"
                      (Common.API_URL test_key) "{}")))
         test_key prompt_event VNone) =
    mkReply 500 None
      (Common.error_details_body
         ("Failed to communicate with the Gemini API: "
          ++ "429 Client Error: Too Many Requests for url: " ++ Common.API_URL test_key)
         ("429 Client Error: Too Many Requests for url: " ++ Common.API_URL test_key)).
Proof.
  apply (handler_upstream_http_error Decoder.loads _ test_key prompt_event VNone
           [("prompt", VStr "component libraries")]
           (Requests.mkResponse 429 "Too Many Requests" (Common.API_URL test_key) "{}")).
  - reflexivity.
  - apply validated_event_with_body; [discriminate | vm_compute; reflexivity].
  - reflexivity.
  - simpl. lia.
Defined.

(** X8: when [requests.post] raises on a validated request, the reply is
    decided by the class of the exception alone: 504 for a timeout; 500 with
    "Failed to communicate with the Gemini API: ..." for any other
    [RequestException]; 500 with "An unexpected server error occurred: ..."
    for an exception of no class the handler names.  The last two repeat
    [str(e)] under [details]. *)
Theorem handler_transport_exception :
  forall loads post key event context data e,
    Common.key_set key = true ->
    validated loads event data ->
    post (Common.upstream_request key Research.RESPONSE_SCHEMA (prompt_of data))
      = Raise e ->
    fst (Research.handler loads post key event context) =
      match exn_cls e with
      | Timeout =>
          mkReply 504 None (Common.error_body "The AI research request timed out.")
      | HTTPError | RequestsJSONDecodeError | RequestException =>
          mkReply 500 None
            (Common.error_details_body
               ("Failed to communicate with the Gemini API: " ++ exn_msg e) (exn_msg e))
      | JSONDecodeError =>
          mkReply 500 None
            (Common.error_body
               "Failed to parse JSON response from AI model. Check prompt/schema alignment.")
      | _ =>
          mkReply 500 None
            (Common.error_details_body
               ("An unexpected server error occurred: " ++ exn_msg e) (exn_msg e))
      end.
Proof.
  intros loads post key event context data e Hkey Hv Hpost.
  rewrite (handler_validated loads post key event context data Hkey Hv), Hpost.
  unfold Research.except, Common.except_Exception, is_Timeout, is_RequestException,
    is_JSONDecodeError.
  destruct (exn_cls e); reflexivity.
Qed.

Lemma handler_transport_exception_witness :
  fst (Research.handler Decoder.loads
         (stub (raise RequestException "Connection refused"))
         test_key prompt_event VNone) =
    mkReply 500 None
      (Common.error_details_body
         ("Failed to communicate with the Gemini API: " ++ "Connection refused")
         "Connection refused").
Proof.
  apply (handler_transport_exception Decoder.loads _ test_key prompt_event VNone
           [("prompt", VStr "component libraries")]
           (mkExn RequestException "Connection refused")).
  - reflexivity.
  - apply validated_event_with_body; [discriminate | vm_compute; reflexivity].
  - reflexivity.
Defined.

(** ** Candidates the handler cannot use *)

(** X9: when the [candidates] key of the upstream body is present and the
    first element of its list is false for Python ([null], an empty dict, an
    empty string, 0), the handler returns 500 with the empty-candidate-list
    message, although the list is not empty. *)
Theorem handler_false_first_candidate :
  forall loads post key event context data response result candidate rest,
    Common.key_set key = true ->
    validated loads event data ->
    post (Common.upstream_request key Research.RESPONSE_SCHEMA (prompt_of data))
      = Ok response ->
    success_status response ->
    loads (Requests.text response) = inr (VDict result) ->
    lookup "candidates" result = Some (VList (candidate :: rest)) ->
    truthy candidate = false ->
    fst (Research.handler loads post key event context) =
      mkReply 500 None
        (Common.error_body "Gemini API returned an empty candidate list.").
Proof.
  intros loads post key event context data response result candidate rest
    Hkey Hv Hpost Hs Hl Hc Ht.
  rewrite (handler_validated loads post key event context data Hkey Hv), Hpost.
  unfold Common.process_response, success_status in *.
  rewrite Hs, rbind_ret. unfold Requests.json. rewrite Hl, rbind_ret.
  rewrite (get_dict _ _ _ _ Hc), rbind_ret.
  change (getitem0 (VList (candidate :: rest))) with (Ok candidate).
  rewrite rbind_ret, Ht. reflexivity.
Qed.

Lemma handler_false_first_candidate_witness :
  fst (Research.handler Decoder.loads
         (stub (Ok (answer (dumps (VDict
            [("candidates", VList [VNone; VDict (candidate_with "{}" [])])])))))
         test_key prompt_event VNone) =
    mkReply 500 None
      (Common.error_body "Gemini API returned an empty candidate list.").
Proof.
  apply (handler_false_first_candidate Decoder.loads _ test_key prompt_event VNone
           [("prompt", VStr "component libraries")]
           (answer (dumps (VDict
              [("candidates", VList [VNone; VDict (candidate_with "{}" [])])])))
           [("candidates", VList [VNone; VDict (candidate_with "{}" [])])]
           VNone [VDict (candidate_with "{}" [])]).
  - reflexivity.
  - apply validated_event_with_body; [discriminate | vm_compute; reflexivity].
  - reflexivity.
  - reflexivity.
  - vm_compute. reflexivity.
  - reflexivity.
  - reflexivity.
Defined.

Lemma get_raises (v : value) (k : string) (default : value) (e : exn) :
  get v k default = Raise e -> runtime_error e = true.
Proof. destruct v; intro H; try discriminate H; injection H as <-; reflexivity. Qed.

Lemma getitem0_raises (v : value) (e : exn) :
  getitem0 v = Raise e -> runtime_error e = true.
Proof.
  destruct v as [ | | | | s | l | ]; intro H;
    try (injection H as <-; reflexivity).
  - destruct s; [injection H as <-; reflexivity | discriminate H].
  - destruct l; [injection H as <-; reflexivity | discriminate H].
Qed.

Lemma getitem_raises (v : value) (k : string) (e : exn) :
  getitem v k = Raise e -> runtime_error e = true.
Proof.
  destruct v; intro H; try (injection H as <-; reflexivity).
  unfold getitem in H. destruct (lookup k items); [discriminate H | ].
  injection H as <-. reflexivity.
Qed.

Lemma iter_raises (v : value) (e : exn) :
  iter v = Raise e -> runtime_error e = true.
Proof. destruct v; intro H; try discriminate H; injection H as <-; reflexivity. Qed.

Lemma rbind_Raise {A B : Type} (r : result A) (k : A -> result B) (e : exn) :
  (x <~ r ;; k x) = Raise e -> r = Raise e \/ exists a, r = Ok a /\ k a = Raise e.
Proof.
  destruct r as [a | e']; simpl; intro H; [right; eauto | ].
  left. injection H as ->. reflexivity.
Qed.

Lemma structured_text_of_raises (candidate : value) (e : exn) :
  structured_text_of candidate = Raise e -> runtime_error e = true.
Proof.
  unfold structured_text_of. intro H.
  apply rbind_Raise in H. destruct H as [H | (content & _ & H)];
    [exact (get_raises _ _ _ _ H) | ].
  apply rbind_Raise in H. destruct H as [H | (parts & _ & H)];
    [exact (get_raises _ _ _ _ H) | ].
  apply rbind_Raise in H. destruct H as [H | (part & _ & H)];
    [exact (getitem0_raises _ _ H) | exact (get_raises _ _ _ _ H)].
Qed.

Lemma for_attribution_raises (attributions : list value) :
  forall sources e,
    Common.for_attribution attributions sources = Raise e -> runtime_error e = true.
Proof.
  induction attributions as [ | attribution rest IH]; intros sources e H;
    [discriminate H | ].
  cbn [Common.for_attribution] in H.
  apply rbind_Raise in H. destruct H as [H | (web & _ & H)];
    [exact (get_raises _ _ _ _ H) | ].
  apply rbind_Raise in H. destruct H as [H | (has & _ & H)].
  { unfold and_then in H. destruct (truthy web); [ | discriminate H ].
    exact (get_raises _ _ _ _ H). }
  destruct (truthy has); [ | exact (IH _ _ H) ].
  apply rbind_Raise in H. destruct H as [H | (uri & _ & H)];
    [exact (getitem_raises _ _ _ H) | ].
  apply rbind_Raise in H. destruct H as [H | (title & _ & H)];
    [exact (get_raises _ _ _ _ H) | exact (IH _ _ H)].
Qed.

Lemma extract_sources_raises (grounding_metadata : value) (e : exn) :
  Common.extract_sources grounding_metadata = Raise e -> runtime_error e = true.
Proof.
  unfold Common.extract_sources. intro H.
  apply rbind_Raise in H. destruct H as [H | (has & _ & H)].
  { unfold and_then in H. destruct (truthy grounding_metadata); [ | discriminate H ].
    exact (get_raises _ _ _ _ H). }
  destruct (truthy has); [ | discriminate H ].
  apply rbind_Raise in H. destruct H as [H | (attributions & _ & H)];
    [exact (getitem_raises _ _ _ H) | ].
  apply rbind_Raise in H. destruct H as [H | (items & _ & H)];
    [exact (iter_raises _ _ H) | exact (for_attribution_raises _ _ _ H)].
Qed.

Lemma except_runtime_error (e : exn) :
  runtime_error e = true ->
  Research.except e =
    mkReply 500 None
      (Common.error_details_body
         ("An unexpected server error occurred: " ++ exn_msg e) (exn_msg e)).
Proof.
  unfold runtime_error, Research.except, is_Timeout, is_RequestException,
    is_JSONDecodeError, Common.except_Exception.
  destruct (exn_cls e); intro H; try discriminate H; reflexivity.
Qed.

(** What the processing of the response does once it has a first candidate
    that is a non-empty dict. *)
Lemma process_response_candidate loads response candidate :
  success_status response ->
  first_candidate loads response (VDict candidate) ->
  candidate <> [] ->
  Common.process_response loads response =
    (json_text <~ structured_text_of (VDict candidate) ;;
     if negb (truthy json_text) then
       Ok (mkReply 500 None
             (Common.error_body "Gemini API failed to return structured JSON content."))
     else
       research_data <~ json_loads loads json_text ;;
       sources <~ Common.extract_sources (grounding_metadata_of candidate) ;;
       Ok (success_reply_of research_data sources)).
Proof.
  intros Hs (result & rest & Hl & Hc) Hne.
  unfold Common.process_response, success_status in *.
  rewrite Hs, rbind_ret. unfold Requests.json. rewrite Hl, rbind_ret.
  rewrite (get_dict _ _ _ _ Hc), rbind_ret.
  change (getitem0 (VList (VDict candidate :: rest))) with (Ok (VDict candidate)).
  rewrite rbind_ret.
  assert (Ht : truthy (VDict candidate) = true)
    by (destruct candidate; [contradiction | reflexivity]).
  rewrite Ht. simpl negb. cbv iota. unfold structured_text_of.
  destruct (get (VDict candidate) "content" (VDict [])) as [content | e];
    [rewrite !rbind_ret | reflexivity].
  destruct (get content "parts" (VList [VDict []])) as [parts | e];
    [rewrite !rbind_ret | reflexivity].
  destruct (getitem0 parts) as [part | e]; [rewrite !rbind_ret | reflexivity].
  destruct (get part "text" VNone) as [json_text | e]; [rewrite !rbind_ret | reflexivity].
  change (get (VDict candidate) "groundingMetadata" (VDict []))
    with (Ok (grounding_metadata_of candidate)).
  rewrite rbind_ret. reflexivity.
Qed.

(** X10: when the first candidate is a non-empty dict but the text read at
    [content.parts[0].text] is absent or false for Python (the defaults [{}]
    and [[{}]] stand in for a missing [content] or [parts], so a candidate
    without them gives [None]), the handler returns 500 with "Gemini API
    failed to return structured JSON content."; the text is not decoded. *)
Theorem handler_missing_structured_text :
  forall loads post key event context data response candidate json_text,
    Common.key_set key = true ->
    validated loads event data ->
    post (Common.upstream_request key Research.RESPONSE_SCHEMA (prompt_of data))
      = Ok response ->
    success_status response ->
    first_candidate loads response (VDict candidate) ->
    candidate <> [] ->
    structured_text_of (VDict candidate) = Ok json_text ->
    truthy json_text = false ->
    fst (Research.handler loads post key event context) =
      mkReply 500 None
        (Common.error_body "Gemini API failed to return structured JSON content.").
Proof.
  intros loads post key event context data response candidate json_text
    Hkey Hv Hpost Hs Hc Hne Ht Hf.
  rewrite (handler_validated loads post key event context data Hkey Hv), Hpost.
  rewrite (process_response_candidate loads response candidate Hs Hc Hne).
  rewrite Ht, rbind_ret, Hf. reflexivity.
Qed.

Lemma handler_missing_structured_text_witness :
  fst (Research.handler Decoder.loads
         (stub (Ok (answer (dumps (VDict
            [("candidates", VList [VDict [("finishReason", VStr "SAFETY")]])])))))
         test_key prompt_event VNone) =
    mkReply 500 None
      (Common.error_body "Gemini API failed to return structured JSON content.").
Proof.
  apply (handler_missing_structured_text Decoder.loads _ test_key prompt_event VNone
           [("prompt", VStr "component libraries")]
           (answer (dumps (VDict
              [("candidates", VList [VDict [("finishReason", VStr "SAFETY")]])])))
           [("finishReason", VStr "SAFETY")] VNone).
  - reflexivity.
  - apply validated_event_with_body; [discriminate | vm_compute; reflexivity].
  - reflexivity.
  - reflexivity.
  - eexists. exists []. split; [vm_compute; reflexivity | reflexivity].
  - discriminate.
  - reflexivity.
  - reflexivity.
Defined.

(** X11: when reading [content.parts[0].text] of the first candidate raises
    (a [content] or [parts] of the wrong type, an empty [parts] list, a first
    part that is not a dict), the handler returns the 500 of the catch-all
    clause with Python's message for the failure; it does not return the
    missing-structured-content reply. *)
Theorem handler_malformed_candidate :
  forall loads post key event context data response candidate e,
    Common.key_set key = true ->
    validated loads event data ->
    post (Common.upstream_request key Research.RESPONSE_SCHEMA (prompt_of data))
      = Ok response ->
    success_status response ->
    first_candidate loads response (VDict candidate) ->
    candidate <> [] ->
    structured_text_of (VDict candidate) = Raise e ->
    fst (Research.handler loads post key event context) =
      mkReply 500 None
        (Common.error_details_body
           ("An unexpected server error occurred: " ++ exn_msg e) (exn_msg e)).
Proof.
  intros loads post key event context data response candidate e
    Hkey Hv Hpost Hs Hc Hne Ht.
  rewrite (handler_validated loads post key event context data Hkey Hv), Hpost.
  rewrite (process_response_candidate loads response candidate Hs Hc Hne).
  rewrite Ht. cbn [rbind fst].
  exact (except_runtime_error e (structured_text_of_raises _ e Ht)).
Qed.

Lemma handler_malformed_candidate_witness :
  fst (Research.handler Decoder.loads
         (stub (Ok (answer (dumps (VDict
            [("candidates",
              VList [VDict [("content", VDict [("parts", VList [])])]])])))))
         test_key prompt_event VNone) =
    mkReply 500 None
      (Common.error_details_body
         ("An unexpected server error occurred: " ++ "list index out of range")
         "list index out of range").
Proof.
  apply (handler_malformed_candidate Decoder.loads _ test_key prompt_event VNone
           [("prompt", VStr "component libraries")]
           (answer (dumps (VDict
              [("candidates",
                VList [VDict [("content", VDict [("parts", VList [])])]])])))
           [("content", VDict [("parts", VList [])])]
           (mkExn IndexError "list index out of range")).
  - reflexivity.
  - apply validated_event_with_body; [discriminate | vm_compute; reflexivity].
  - reflexivity.
  - reflexivity.
  - eexists. exists []. split; [vm_compute; reflexivity | reflexivity].
  - discriminate.
  - reflexivity.
Defined.

(** X12: when the text at [content.parts[0].text] is true for Python but is
    not a [str] (the structured data sent as an object instead of as its
    JSON text), [json.loads] raises [TypeError] and the handler returns the
    500 of the catch-all clause, not the parse-failure reply. *)
Theorem handler_structured_text_not_a_str :
  forall loads post key event context data response candidate json_text,
    Common.key_set key = true ->
    validated loads event data ->
    post (Common.upstream_request key Research.RESPONSE_SCHEMA (prompt_of data))
      = Ok response ->
    success_status response ->
    first_candidate loads response (VDict candidate) ->
    candidate <> [] ->
    structured_text_of (VDict candidate) = Ok json_text ->
    truthy json_text = true ->
    (forall s, json_text <> VStr s) ->
    fst (Research.handler loads post key event context) =
      mkReply 500 None
        (Common.error_details_body
           ("An unexpected server error occurred: "
            ++ "the JSON object must be str, bytes or bytearray, not "
            ++ type_name json_text)
           ("the JSON object must be str, bytes or bytearray, not "
            ++ type_name json_text)).
Proof.
  intros loads post key event context data response candidate json_text
    Hkey Hv Hpost Hs Hc Hne Ht Htrue Hstr.
  rewrite (handler_validated loads post key event context data Hkey Hv), Hpost.
  rewrite (process_response_candidate loads response candidate Hs Hc Hne).
  rewrite Ht, rbind_ret, Htrue. simpl negb. cbv iota.
  destruct json_text; try reflexivity.
  exfalso. exact (Hstr _ eq_refl).
Qed.

Lemma handler_structured_text_not_a_str_witness :
  fst (Research.handler Decoder.loads
         (stub (Ok (answer (dumps (VDict
            [("candidates",
              VList [VDict [("content",
                VDict [("parts", VList [VDict [("text", empty_research)]])])]])])))))
         test_key prompt_event VNone) =
    mkReply 500 None
      (Common.error_details_body
         "An unexpected server error occurred: the JSON object must be str, bytes or bytearray, not dict"
         "the JSON object must be str, bytes or bytearray, not dict").
Proof.
  apply (handler_structured_text_not_a_str Decoder.loads _ test_key prompt_event VNone
           [("prompt", VStr "component libraries")]
           (answer (dumps (VDict
              [("candidates",
                VList [VDict [("content",
                  VDict [("parts", VList [VDict [("text", empty_research)]])])]])])))
           [("content", VDict [("parts", VList [VDict [("text", empty_research)]])])]
           empty_research).
  - reflexivity.
  - apply validated_event_with_body; [discriminate | vm_compute; reflexivity].
  - reflexivity.
  - reflexivity.
  - eexists. exists []. split; [vm_compute; reflexivity | reflexivity].
  - discriminate.
  - reflexivity.
  - reflexivity.
  - discriminate.
Defined.

(** X13: there is no partial success.  When the structured text of the
    first candidate decodes but citation extraction raises (an attribution
    that is not a dict, a [web] that is a string, [groundingAttributions]
    that is a number), the handler returns the 500 of the catch-all clause:
    the decoded research is not returned. *)
Theorem handler_citation_failure_discards_research :
  forall loads post key event context data response candidate json_text research e,
    Common.key_set key = true ->
    validated loads event data ->
    post (Common.upstream_request key Research.RESPONSE_SCHEMA (prompt_of data))
      = Ok response ->
    success_status response ->
    first_candidate loads response (VDict candidate) ->
    structured_text candidate json_text ->
    loads json_text = inr research ->
    Common.extract_sources (grounding_metadata_of candidate) = Raise e ->
    fst (Research.handler loads post key event context) =
      mkReply 500 None
        (Common.error_details_body
           ("An unexpected server error occurred: " ++ exn_msg e) (exn_msg e)).
Proof.
  intros loads post key event context data response candidate json_text research e
    Hkey Hv Hpost Hs Hc Ht Hl He.
  rewrite (handler_validated loads post key event context data Hkey Hv), Hpost.
  rewrite (process_response_structured loads response candidate json_text Hs Hc Ht).
  unfold json_loads. rewrite Hl, rbind_ret, He. cbn [rbind fst].
  exact (except_runtime_error e (extract_sources_raises _ e He)).
Qed.

Lemma handler_citation_failure_discards_research_witness :
  fst (Research.handler Decoder.loads
         (stub (Ok (answer (dumps (VDict
            [("candidates",
              VList [VDict (candidate_with (dumps empty_research)
                [("groundingMetadata",
                  VDict [("groundingAttributions",
                          VList [VStr "https://ui.shadcn.com"])])])])])))))
         test_key prompt_event VNone) =
    mkReply 500 None
      (Common.error_details_body
         ("An unexpected server error occurred: "
          ++ "'str' object has no attribute 'get'")
         "'str' object has no attribute 'get'").
Proof.
  apply (handler_citation_failure_discards_research Decoder.loads _ test_key
           prompt_event VNone
           [("prompt", VStr "component libraries")]
           (answer (dumps (VDict
              [("candidates",
                VList [VDict (candidate_with (dumps empty_research)
                  [("groundingMetadata",
                    VDict [("groundingAttributions",
                            VList [VStr "https://ui.shadcn.com"])])])])])))
           (candidate_with (dumps empty_research)
              [("groundingMetadata",
                VDict [("groundingAttributions",
                        VList [VStr "https://ui.shadcn.com"])])])
           (dumps empty_research) empty_research
           (mkExn AttributeError "'str' object has no attribute 'get'")).
  - reflexivity.
  - apply validated_event_with_body; [discriminate | vm_compute; reflexivity].
  - reflexivity.
  - reflexivity.
  - eexists. exists []. split; [vm_compute; reflexivity | reflexivity].
  - apply structured_text_candidate_with. discriminate.
  - vm_compute. reflexivity.
  - reflexivity.
Defined.

(** ** The sources of a success reply *)

Lemma and_then_true (a h : value) (b : result value) :
  and_then a b = Ok h -> truthy h = true -> truthy a = true /\ b = Ok h.
Proof.
  unfold and_then. destruct (truthy a) eqn:Ea; intros H Ht.
  - split; [reflexivity | exact H].
  - injection H as <-. rewrite Ea in Ht. discriminate Ht.
Qed.

Lemma for_attribution_entries (attributions : list value) :
  forall sources out,
    Common.for_attribution attributions sources = Ok out ->
    Forall source_entry sources -> Forall source_entry out.
Proof.
  induction attributions as [ | attribution rest IH]; intros sources out H Hs.
  - injection H as <-. exact Hs.
  - cbn [Common.for_attribution] in H.
    apply rbind_Ok in H. destruct H as (web & _ & H).
    apply rbind_Ok in H. destruct H as (has & Eh & H).
    destruct (truthy has) eqn:Et; [ | exact (IH _ _ H Hs) ].
    apply rbind_Ok in H. destruct H as (uri & Euri & H).
    apply rbind_Ok in H. destruct H as (title & _ & H).
    apply (IH _ _ H). apply Forall_app. split; [exact Hs | ].
    constructor; [ | constructor ].
    exists uri, title. split; [reflexivity | ].
    destruct (and_then_true _ _ _ Eh Et) as [_ Eg].
    destruct web as [ | | | | | | members]; try discriminate Eg.
    unfold get in Eg. unfold getitem in Euri.
    destruct (lookup "uri" members) as [u | ]; [ | discriminate Euri ].
    injection Eg as <-. injection Euri as <-. exact Et.
Qed.

Lemma extract_sources_entries (grounding_metadata : value) (sources : list value) :
  Common.extract_sources grounding_metadata = Ok sources ->
  Forall source_entry sources.
Proof.
  unfold Common.extract_sources. intro H.
  apply rbind_Ok in H. destruct H as (has & _ & H).
  destruct (truthy has).
  - apply rbind_Ok in H. destruct H as (attributions & _ & H).
    apply rbind_Ok in H. destruct H as (items & _ & H).
    exact (for_attribution_entries items [] sources H (Forall_nil _)).
  - injection H as <-. constructor.
Qed.

Lemma process_response_200 loads response reply :
  Common.process_response loads response = Ok reply ->
  statusCode reply = 200%Z ->
  exists research sources,
    reply = success_reply_of research sources /\ Forall source_entry sources.
Proof.
  unfold Common.process_response. intros H Hstatus.
  apply rbind_Ok in H. destruct H as (u & _ & H).
  apply rbind_Ok in H. destruct H as (result & _ & H).
  apply rbind_Ok in H. destruct H as (candidates & _ & H).
  apply rbind_Ok in H. destruct H as (candidate & _ & H).
  destruct (negb (truthy candidate)).
  { injection H as <-. discriminate Hstatus. }
  apply rbind_Ok in H. destruct H as (content & _ & H).
  apply rbind_Ok in H. destruct H as (parts & _ & H).
  apply rbind_Ok in H. destruct H as (part & _ & H).
  apply rbind_Ok in H. destruct H as (json_text & _ & H).
  apply rbind_Ok in H. destruct H as (grounding_metadata & _ & H).
  destruct (negb (truthy json_text)).
  { injection H as <-. discriminate Hstatus. }
  apply rbind_Ok in H. destruct H as (research_data & _ & H).
  apply rbind_Ok in H. destruct H as (sources & Es & H).
  injection H as <-. exists research_data, sources.
  split; [reflexivity | exact (extract_sources_entries _ _ Es)].
Qed.

Lemma except_not_200 (e : exn) : statusCode (Research.except e) <> 200%Z.
Proof.
  unfold Research.except, Common.except_Exception.
  destruct (is_Timeout e); [ | destruct (is_RequestException e);
                               [ | destruct (is_JSONDecodeError e) ] ];
    discriminate.
Qed.

(** X14: whenever the handler returns status 200, its body is the success
    envelope and every entry of [sources] is a dict with exactly the keys
    [uri] and [title], whose uri is true for Python (never [None], never the
    empty string): no entry without a usable link reaches the page. *)
Theorem handler_200_sources_have_uri :
  forall loads post key event context,
    statusCode (fst (Research.handler loads post key event context)) = 200%Z ->
    exists research sources,
      fst (Research.handler loads post key event context) =
        mkReply 200 (Some [("Content-Type", "application/json")])
          (dumps (VDict [("research", research); ("sources", VList sources)])) /\
      Forall source_entry sources.
Proof.
  intros loads post key event context. unfold Research.handler.
  destruct (negb (Common.key_set key)); [discriminate | ].
  pose proof (try_block_returns
                (fun r => statusCode r = 200%Z ->
                          exists research sources,
                            r = success_reply_of research sources /\
                            Forall source_entry sources)
                loads post key Research.RESPONSE_SCHEMA event
                (fun E => ltac:(discriminate E))
                (process_response_200 loads) []) as Hr.
  destruct (Common.try_block loads post key Research.RESPONSE_SCHEMA event [])
    as [[r | e] cs]; cbn [fst].
  - exact Hr.
  - intro H. exfalso. exact (except_not_200 e H).
Qed.

Lemma handler_200_sources_have_uri_witness :
  exists research sources,
    fst (Research.handler Decoder.loads
           (stub (Ok (answer (dumps (VDict
              [("candidates", VList [VDict grounded_candidate])])))))
           test_key prompt_event VNone) =
      mkReply 200 (Some [("Content-Type", "application/json")])
        (dumps (VDict [("research", research); ("sources", VList sources)])) /\
    Forall source_entry sources.
Proof.
  apply (handler_200_sources_have_uri Decoder.loads
           (stub (Ok (answer (dumps (VDict
              [("candidates", VList [VDict grounded_candidate])])))))
           test_key prompt_event VNone).
  vm_compute. reflexivity.
Defined.

Lemma for_attribution_ok_readable (attributions : list value) :
  forall sources out,
    Common.for_attribution attributions sources = Ok out ->
    forallb readable attributions = true.
Proof.
  induction attributions as [ | attribution rest IH]; intros sources out H;
    [reflexivity | ].
  cbn [Common.for_attribution] in H.
  apply rbind_Ok in H. destruct H as (web & Eweb & H).
  apply rbind_Ok in H. destruct H as (has & Eh & H).
  assert (Hrest : forallb readable rest = true).
  { destruct (truthy has); [ | exact (IH _ _ H) ].
    apply rbind_Ok in H. destruct H as (uri & _ & H).
    apply rbind_Ok in H. destruct H as (title & _ & H).
    exact (IH _ _ H). }
  cbn [forallb]. rewrite Hrest, andb_true_r.
  destruct attribution as [ | | | | | | items]; try discriminate Eweb.
  unfold get in Eweb. unfold readable.
  destruct (lookup "web" items) as [w | ]; [ | reflexivity ].
  injection Eweb as <-. unfold and_then in Eh.
  destruct w; try reflexivity; simpl truthy in *;
    match goal with
    | |- negb ?b = true => destruct b; [discriminate Eh | reflexivity]
    end.
Qed.

Lemma extract_sources_ok_readable candidate attributions sources :
  grounding candidate attributions ->
  Common.extract_sources (grounding_metadata_of candidate) = Ok sources ->
  forallb readable attributions = true.
Proof.
  intros Hg H. destruct Hg as [Hm | metadata Hm Ha | metadata attributions Hm Ha];
    try reflexivity.
  unfold grounding_metadata_of in H. rewrite Hm in H.
  unfold Common.extract_sources, and_then in H.
  destruct metadata as [ | kv metadata'] eqn:E; [discriminate Ha | ].
  rewrite <- E in *.
  replace (truthy (VDict metadata)) with true in H by (subst; reflexivity).
  rewrite (get_dict _ _ _ _ Ha), rbind_ret in H.
  destruct attributions as [ | a rest]; [reflexivity | ].
  simpl truthy in H. cbv iota in H.
  unfold getitem in H. rewrite Ha, rbind_ret in H. unfold iter in H.
  rewrite rbind_ret in H.
  exact (for_attribution_ok_readable _ _ _ H).
Qed.

(** X15: for a candidate whose structured text decodes, the handler
    returns 200 exactly when every grounding attribution is readable (a dict
    whose [web] is absent, false or a dict); one attribution of another shape
    is enough to turn the reply into a 500. *)
Theorem handler_200_iff_attributions_readable :
  forall loads post key event context data response candidate json_text
         research attributions,
    Common.key_set key = true ->
    validated loads event data ->
    post (Common.upstream_request key Research.RESPONSE_SCHEMA (prompt_of data))
      = Ok response ->
    success_status response ->
    first_candidate loads response (VDict candidate) ->
    structured_text candidate json_text ->
    loads json_text = inr research ->
    grounding candidate attributions ->
    (statusCode (fst (Research.handler loads post key event context)) = 200%Z <->
     forallb readable attributions = true).
Proof.
  intros loads post key event context data response candidate json_text
    research attributions Hkey Hv Hpost Hs Hc Ht Hl Hg.
  split.
  - rewrite (handler_validated loads post key event context data Hkey Hv), Hpost.
    rewrite (process_response_structured loads response candidate json_text Hs Hc Ht).
    unfold json_loads. rewrite Hl, rbind_ret.
    destruct (Common.extract_sources (grounding_metadata_of candidate))
      as [sources | e] eqn:E; cbn [rbind fst].
    + intros _. exact (extract_sources_ok_readable _ _ _ Hg E).
    + intro H. exfalso. exact (except_not_200 e H).
  - intro Hr.
    rewrite (handler_success loads post key event context data response candidate
               json_text research (spec_sources attributions) Hkey Hv Hpost Hs Hc Ht Hl
               (extract_sources_spec _ _ Hg Hr)).
    reflexivity.
Qed.

Lemma handler_200_iff_attributions_readable_witness :
  statusCode
    (fst (Research.handler Decoder.loads
            (stub (Ok (answer (dumps (VDict
               [("candidates", VList [VDict grounded_candidate])])))))
            test_key prompt_event VNone)) = 200%Z <->
  forallb readable sample_attributions = true.
Proof.
  apply (handler_200_iff_attributions_readable Decoder.loads _ test_key prompt_event
           VNone [("prompt", VStr "component libraries")]
           (answer (dumps (VDict [("candidates", VList [VDict grounded_candidate])])))
           grounded_candidate (dumps empty_research) empty_research
           sample_attributions).
  - reflexivity.
  - apply validated_event_with_body; [discriminate | vm_compute; reflexivity].
  - reflexivity.
  - reflexivity.
  - eexists. exists []. split; [vm_compute; reflexivity | reflexivity].
  - apply structured_text_candidate_with. discriminate.
  - vm_compute. reflexivity.
  - eapply grounding_attributions; reflexivity.
Defined.

(** ** The envelope *)

Lemma handler_well_formed loads post key event context :
  well_formed (fst (Research.handler loads post key event context)).
Proof.
  unfold Research.handler. destruct (negb (Common.key_set key)).
  - apply error_body_well_formed. simpl. auto.
  - pose proof (try_block_returns well_formed loads post key
                  Research.RESPONSE_SCHEMA event
                  (error_body_well_formed 400 _ (or_introl eq_refl))
                  (process_response_well_formed loads) []) as Hr.
    destruct (Common.try_block loads post key Research.RESPONSE_SCHEMA event [])
      as [[r | e] cs]; cbn [fst]; [exact Hr | apply except_well_formed].
Qed.

(** X16: a reply carries the [Content-Type: application/json] header
    exactly when its status is 200; every error reply, of whatever status,
    has no [headers] entry at all, although its body is JSON too. *)
Theorem handler_headers_iff_200 :
  forall loads post key event context,
    let reply := fst (Research.handler loads post key event context) in
    (statusCode reply = 200%Z <->
     headers reply = Some [("Content-Type", "application/json")]) /\
    (statusCode reply <> 200%Z <-> headers reply = None).
Proof.
  intros loads post key event context reply.
  destruct (handler_well_formed loads post key event context)
    as [[Hs [Hh _]] | [Hs [Hh _]]]; fold reply in Hs, Hh.
  - rewrite Hs, Hh. split; split; try reflexivity; try discriminate.
    intro H. exfalso. apply H. reflexivity.
  - assert (Hn : statusCode reply <> 200%Z).
    { intro E. rewrite E in Hs. simpl in Hs.
      destruct Hs as [H | [H | [H | []]]]; discriminate H. }
    rewrite Hh. split; split; try discriminate; try reflexivity.
    + intro E. contradiction.
    + intros _. exact Hn.
Qed.

(** X19: only a 4xx or 5xx status makes the upstream answer a failure.  An
    answer with any other status (a 204, a 302 that was not followed) whose
    body has a first candidate with structured text that decodes, and no
    grounding metadata, is relayed with status 200 like a 200 answer. *)
Theorem handler_relays_other_statuses :
  forall loads post key event context data response candidate json_text research,
    Common.key_set key = true ->
    validated loads event data ->
    post (Common.upstream_request key Research.RESPONSE_SCHEMA (prompt_of data))
      = Ok response ->
    (Requests.status_code response < 400 \/ 600 <= Requests.status_code response)%Z ->
    first_candidate loads response (VDict candidate) ->
    structured_text candidate json_text ->
    loads json_text = inr research ->
    lookup "groundingMetadata" candidate = None ->
    fst (Research.handler loads post key event context) =
      mkReply 200 (Some [("Content-Type", "application/json")])
        (dumps (VDict [("research", research); ("sources", VList [])])).
Proof.
  intros loads post key event context data response candidate json_text research
    Hkey Hv Hpost Hstatus Hc Ht Hl Hg.
  assert (Hs : success_status response).
  { unfold success_status, Requests.raise_for_status.
    destruct Hstatus as [H | H].
    - replace (Z.leb 400 (Requests.status_code response)) with false
        by (symmetry; apply Z.leb_gt; lia).
      replace (Z.leb 500 (Requests.status_code response)) with false
        by (symmetry; apply Z.leb_gt; lia).
      reflexivity.
    - replace (Z.ltb (Requests.status_code response) 500) with false
        by (symmetry; apply Z.ltb_ge; lia).
      replace (Z.ltb (Requests.status_code response) 600) with false
        by (symmetry; apply Z.ltb_ge; lia).
      rewrite !andb_false_r. reflexivity. }
  rewrite (handler_success loads post key event context data response candidate
             json_text research [] Hkey Hv Hpost Hs Hc Ht Hl).
  - reflexivity.
  - unfold grounding_metadata_of. rewrite Hg. reflexivity.
Qed.

Lemma handler_relays_other_statuses_witness :
  fst (Research.handler Decoder.loads
         (stub (Ok (Requests.mkResponse 302 "Found" (Common.API_URL test_key)
                      (dumps (VDict
                         [("candidates",
                           VList [VDict (candidate_with (dumps empty_research) [])])])))))
         test_key prompt_event VNone) =
    mkReply 200 (Some [("Content-Type", "application/json")])
      (dumps (VDict [("research", empty_research); ("sources", VList [])])).
Proof.
  apply (handler_relays_other_statuses Decoder.loads _ test_key prompt_event VNone
           [("prompt", VStr "component libraries")]
           (Requests.mkResponse 302 "Found" (Common.API_URL test_key)
              (dumps (VDict
                 [("candidates",
                   VList [VDict (candidate_with (dumps empty_research) [])])])))
           (candidate_with (dumps empty_research) []) (dumps empty_research)
           empty_research).
  - reflexivity.
  - apply validated_event_with_body; [discriminate | vm_compute; reflexivity].
  - reflexivity.
  - left. simpl. lia.
  - eexists. exists []. split; [vm_compute; reflexivity | reflexivity].
  - apply structured_text_candidate_with. discriminate.
  - vm_compute. reflexivity.
  - reflexivity.
Defined.
